(** * fetch_image.py: the image fetcher, embedded and verified

    A shallow embedding of [fetch_image.py]: the filename resolver
    [get_filename_from_url], the downloader [download_image] and the
    command-line entry point [main].

    Conventions of the embedding.
    - Python [str] values are Rocq strings whose characters are read as
      Latin-1 code points (this is how [http.client] decodes header
      values; console text is kept as its UTF-8 bytes).
    - [bytes] values are lists of [Byte.byte].
    - Effects are threaded through a small exception/state monad [M]:
      the state is the filesystem plus the trace of observable events
      (console output, the prompt, HTTP requests issued).
    - Everything the program obtains from outside (the typed line, the
      clock, the UUID generator, the HTTP client, OS failures) and the
      two URL library functions [urlparse] and [unquote] are fields of a
      [World] record over which every theorem quantifies. *)

From Stdlib Require Import ZArith NArith Ascii Lia.
From Stdlib Require Import Numbers.DecimalString Numbers.HexadecimalString.
From Stdlib Require Import Numbers.DecimalZ Numbers.HexadecimalN.
From stdpp Require Import base option list strings gmap.

Local Open Scope Z_scope.

(** ** Python string primitives *)

Module Py.

(** Truthiness of a [str]: non-empty. *)
Definition truthy (s : string) : bool :=
  match s with
  | EmptyString => false
  | String _ _ => true
  end.

(** Truthiness of a [bytes] chunk: non-empty. *)
Definition truthy_bytes (b : list Byte.byte) : bool :=
  match b with
  | [] => false
  | _ :: _ => true
  end.

(** Truthiness of an optional [str] ([None] and [""] are falsy). *)
Definition truthy_opt (o : option string) : bool :=
  match o with
  | None => false
  | Some s => truthy s
  end.

(** [a or b] on strings. *)
Definition or_ (a b : string) : string := if truthy a then a else b.

(** [c in s] for a one-character needle. *)
Fixpoint contains (c : ascii) (s : string) : bool :=
  match s with
  | EmptyString => false
  | String a r => if Ascii.eqb a c then true else contains c r
  end.

(** [s.startswith(p)]. *)
Fixpoint startswith (s p : string) {struct p} : bool :=
  match p, s with
  | EmptyString, _ => true
  | String _ _, EmptyString => false
  | String a p', String b s' => if Ascii.eqb a b then startswith s' p' else false
  end.

(** [s.split(c)[0]]: the text before the first [c] (all of [s] when
    [c] does not occur). *)
Fixpoint split_first (c : ascii) (s : string) : string :=
  match s with
  | EmptyString => EmptyString
  | String a r => if Ascii.eqb a c then EmptyString else String a (split_first c r)
  end.

(** [s.split(c)[-1]], which is also [s[s.rfind(c) + 1:]]: the text
    after the last [c] (all of [s] when [c] does not occur). *)
Fixpoint split_last (c : ascii) (s : string) : string :=
  match s with
  | EmptyString => EmptyString
  | String a r =>
      if contains c r then split_last c r
      else if Ascii.eqb a c then r else s
  end.

(** [str.lower] on one Latin-1 code point: [A-Z], [U+00C0-U+00D6] and
    [U+00D8-U+00DE] move up by 32, every other code point is fixed. *)
Definition lower_char (a : ascii) : ascii :=
  let n := N_of_ascii a in
  if ((65 <=? n) && (n <=? 90) || (192 <=? n) && (n <=? 214)
      || (216 <=? n) && (n <=? 222))%N
  then ascii_of_N (n + 32) else a.

Fixpoint lower (s : string) : string :=
  match s with
  | EmptyString => EmptyString
  | String a r => String (lower_char a) (lower r)
  end.

(** [str.isspace] on one Latin-1 code point. *)
Definition is_space (a : ascii) : bool :=
  let n := N_of_ascii a in
  ((9 <=? n) && (n <=? 13) || (28 <=? n) && (n <=? 32)
   || (n =? 133) || (n =? 160))%N.

Fixpoint lstrip (s : string) : string :=
  match s with
  | EmptyString => EmptyString
  | String a r => if is_space a then lstrip r else s
  end.

Fixpoint rstrip (s : string) : string :=
  match s with
  | EmptyString => EmptyString
  | String a r =>
      match rstrip r with
      | EmptyString => if is_space a then EmptyString else String a EmptyString
      | r' => String a r'
      end
  end.

(** [s.strip()]. *)
Definition strip (s : string) : string := rstrip (lstrip s).

(** [str(n)] / [f"{n}"] for an [int]. *)
Definition str_int (n : Z) : string :=
  DecimalString.NilZero.string_of_int (Z.to_int n).

(** ["%032x" % n]: lower-case hexadecimal, zero-padded on the left to
    at least 32 characters. *)
Fixpoint zeros (k : nat) : string :=
  match k with
  | O => EmptyString
  | S k' => String "0" (zeros k')
  end.

Definition hex32 (n : N) : string :=
  let h := HexadecimalString.NilZero.string_of_uint (N.to_hex_uint n) in
  zeros (32 - String.length h) +:+ h.

(** [s[:k]]. *)
Fixpoint take (k : nat) (s : string) : string :=
  match k, s with
  | S k', String a r => String a (take k' r)
  | _, _ => EmptyString
  end.

(** [os.path.basename] (POSIX flavour): [p[p.rfind("/") + 1:]]. *)
Definition basename (p : string) : string := split_last "/" p.

(** The character U+0000, which no file name may hold. *)
Definition NUL : ascii := Ascii.zero.

End Py.

(** ** The outside world *)

Abbreviation bytes := (list Byte.byte).

(** The two fields of [urllib.parse.ParseResult] the program reads. *)
Record ParseResult := { scheme : string; path : string }.

(** A [requests.Response] once the headers have arrived. [headers] is
    the store of the case-insensitive header dictionary, keyed by the
    lower-cased header name. [iter_content] lists the chunks the body
    iterator yields, in arrival order; [iter_error] is the text of the
    [RequestException] it raises after the last of them, if the
    transfer breaks. *)
Record Response := {
  status_code : Z;
  reason : string;
  url : string;
  headers : gmap string string;
  iter_content : list bytes;
  iter_error : option string;
}.

(** Exceptions the program can meet. [requests]' [RequestException] is a
    subclass of [IOError], that is of [OSError]. *)
Inductive Exn :=
  | RequestException (msg : string)
  | OSError (msg : string)
  | ValueError (msg : string)
  | EOFError.

Definition str_exn (e : Exn) : string :=
  match e with
  | RequestException msg | OSError msg | ValueError msg => msg
  | EOFError => "EOF when reading a line"
  end.

Definition isinstance_RequestException (e : Exn) : bool :=
  match e with
  | RequestException _ => true
  | _ => false
  end.

Definition isinstance_OSError (e : Exn) : bool :=
  match e with
  | RequestException _ | OSError _ => true
  | _ => false
  end.

(** What one launch of the program gets from outside.  [urlparse]
    returns [inl msg] where the library raises [ValueError(msg)];
    [requests_get] returns [inl msg] where [requests.get] raises a
    [RequestException] whose text is [msg] (DNS, connection, timeout,
    invalid URL, ...).  [time_time] is [int(time.time())], the seconds
    elapsed since the epoch on the POSIX realtime clock; [uuid4] is
    the 128-bit integer of the UUID drawn.  [mkdir_error],
    [open_error] and [write_error] give the text of the [OSError] the
    operating system answers with, if it refuses (no permission, a
    name too long, a full disk, ...). *)
Record World := {
  urlparse : string -> string + ParseResult;
  unquote : string -> string;
  stdin : option string;
  time_time : N;
  uuid4 : N;
  requests_get : string -> string + Response;
  mkdir_error : option string;
  open_error : string -> option string;
  write_error : nat -> option string;
}.

(** The filesystem: the directories that exist and the regular files
    with their contents. *)
Record FS := { dirs : gset string; files : gmap string bytes }.

(** Observable events, oldest first in a trace. *)
Inductive Event :=
  | Print (line : string)
  | Prompt (text : string)
  | HttpGet (target : string).

Record State := { fs : FS; trace : list Event }.

(** ** The exception/state monad *)

Inductive Res (A : Type) :=
  | Ret (a : A)
  | Raise (e : Exn).
Arguments Ret {A} a.
Arguments Raise {A} e.

Definition M (A : Type) : Type := State -> Res A * State.

Definition ret {A} (a : A) : M A := fun st => (Ret a, st).

Definition raise {A} (e : Exn) : M A := fun st => (Raise e, st).

Definition bind {A B} (m : M A) (k : A -> M B) : M B :=
  fun st =>
    match m st with
    | (Ret a, st') => k a st'
    | (Raise e, st') => (Raise e, st')
    end.

(** [try: m except C as e: ...]: exceptions of class [C] are handed to
    the caller as [inl e], the others keep propagating. *)
Definition try_except {A} (m : M A) (C : Exn -> bool) : M (Exn + A) :=
  fun st =>
    match m st with
    | (Ret a, st') => (Ret (inr a), st')
    | (Raise e, st') => if C e then (Ret (inl e), st') else (Raise e, st')
    end.

Notation "'let*' x := m 'in' k" := (bind m (fun x => k))
  (at level 10, x name, m at level 100, k at level 200).
Notation "m ;;; k" := (bind m (fun _ => k))
  (at level 100, k at level 200, right associativity).

Definition emit (e : Event) : M unit :=
  fun st => (Ret tt, {| fs := fs st; trace := trace st ++ [e] |}).

Definition print (line : string) : M unit := emit (Print line).

Definition set_fs (f : FS) : M unit :=
  fun st => (Ret tt, {| fs := f; trace := trace st |}).

Definition get_fs : M FS := fun st => (Ret (fs st), st).

(** ** The program *)

Definition FETCH_DIR : string := "Fetched_Images".

Definition COMMON_IMAGE_EXT : gmap string string :=
  list_to_map
    [ ("image/jpeg", ".jpg");
      ("image/pjpeg", ".jpg");
      ("image/png", ".png");
      ("image/gif", ".gif");
      ("image/webp", ".webp");
      ("image/bmp", ".bmp");
      ("image/svg+xml", ".svg");
      ("image/x-icon", ".ico") ].

(** [FETCH_DIR / filename] for a [filename] without ["/"] (a basename
    or a generated name): [pathlib] drops an empty or a ["."]
    component. *)
Definition path_join (dir filename : string) : string :=
  if String.eqb filename "" || String.eqb filename "." then dir
  else dir +:+ "/" +:+ filename.

(** [response.headers.get(name, default)]. *)
Definition headers_get (response : Response) (name dflt : string) : string :=
  default dflt (headers response !! Py.lower name).

Section Program.

Variable w : World.

(** [Path.mkdir(parents=True, exist_ok=True)] on [FETCH_DIR].  A
    directory recorded in [dirs] is one the process can reach: the
    refusal of [os.mkdir] for a directory that is there is swallowed
    ([exist_ok]); [mkdir_error] is what the OS answers when it is not
    there. *)
Definition mkdir (dir : string) : M unit :=
  let* f := get_fs in
  if decide (dir ∈ dirs f) then ret tt
  else match mkdir_error w with
       | Some e => raise (OSError e)
       | None => set_fs {| dirs := {[dir]} ∪ dirs f; files := files f |}
       end.

Definition ensure_fetch_dir : M unit := mkdir FETCH_DIR.

Definition py_urlparse (u : string) : M ParseResult :=
  match urlparse w u with
  | inl msg => raise (ValueError msg)
  | inr parsed => ret parsed
  end.

(** [response.headers.get("Content-Type", "").split(";")[0].lower()]. *)
Definition content_type_of (response : Response) : string :=
  Py.lower (Py.split_first ";" (headers_get response "Content-Type" "")).

(** [uuid.uuid4().hex[:6]]. *)
Definition short_id_of (u : N) : string := Py.take 6 (Py.hex32 u).

Definition get_filename_from_url (u : string) (response : Response) : M string :=
  let* parsed := py_urlparse u in
  let path := unquote w (Py.or_ (path parsed) "") in
  let name := Py.basename path in
  if Py.truthy name && Py.contains "." name then ret name
  else
    let content_type := content_type_of response in
    let ext := COMMON_IMAGE_EXT !! content_type in
    let ext :=
      if negb (Py.truthy_opt ext) && Py.startswith content_type "image/"
      then Some ("." +:+ Py.split_last "/" content_type)
      else ext in
    let ext := if negb (Py.truthy_opt ext) then Some ".jpg" else ext in
    let timestamp := Z.of_N (time_time w) in
    let short_id := short_id_of (uuid4 w) in
    ret ("image_" +:+ Py.str_int timestamp +:+ "_" +:+ short_id
           +:+ default "" ext).

(** [requests.get(url, stream=True, timeout=15)], as far as the first
    handler of [download_image] is concerned: a response, or a failure
    of class [RequestException].  Exceptions of other classes that the
    client lets through are not part of [requests_get]. *)
Definition py_requests_get (u : string) : M Response :=
  emit (HttpGet u) ;;;
  match requests_get w u with
  | inl msg => raise (RequestException msg)
  | inr resp => ret resp
  end.

(** [Response.raise_for_status]: [http_error_msg] starts out empty and
    is set for a 4xx or a 5xx status; a non-empty message is raised
    as [HTTPError], a [RequestException]. *)
Definition http_error_msg (resp : Response) : string :=
  let c := status_code resp in
  if (400 <=? c) && (c <? 500)
  then Py.str_int c +:+ " Client Error: " +:+ reason resp
         +:+ " for url: " +:+ url resp
  else if (500 <=? c) && (c <? 600)
  then Py.str_int c +:+ " Server Error: " +:+ reason resp
         +:+ " for url: " +:+ url resp
  else "".

Definition raise_for_status (resp : Response) : M unit :=
  if Py.truthy (http_error_msg resp)
  then raise (RequestException (http_error_msg resp))
  else ret tt.

Definition strerror_ENOENT (filepath : string) : string :=
  "[Errno 2] No such file or directory: '" +:+ filepath +:+ "'".

(** [open(filepath, "wb")] for a file directly under [FETCH_DIR].  A
    path holding U+0000 is refused by the interpreter itself, before
    any system call, with [ValueError("embedded null byte")].
    Otherwise the call fails with an [OSError] when the directory is
    missing or when the OS refuses, and else creates the file or
    truncates it to length zero. *)
Definition open_wb (filepath : string) : M unit :=
  if Py.contains Py.NUL filepath then raise (ValueError "embedded null byte")
  else
    let* f := get_fs in
    if decide (FETCH_DIR ∈ dirs f) then
      match open_error w filepath with
      | Some e => raise (OSError e)
      | None => set_fs {| dirs := dirs f; files := <[filepath := []]> (files f) |}
      end
    else raise (OSError (strerror_ENOENT filepath)).

(** [f.write(chunk)], the [i]-th pass through the loop body.  A write
    goes through whole or raises; what a refused write leaves of its
    own chunk on disk (buffering, short writes) is not modelled. *)
Definition f_write (filepath : string) (i : nat) (chunk : bytes) : M unit :=
  match write_error w i with
  | Some e => raise (OSError e)
  | None =>
      let* f := get_fs in
      set_fs {| dirs := dirs f;
                files := <[filepath := default [] (files f !! filepath) ++ chunk]>
                           (files f) |}
  end.

(** [for chunk in ...: if chunk: f.write(chunk)] over the chunks that
    arrive. *)
Fixpoint write_chunks (filepath : string) (i : nat) (chunks : list bytes) : M unit :=
  match chunks with
  | [] => ret tt
  | chunk :: rest =>
      (if Py.truthy_bytes chunk then f_write filepath i chunk else ret tt) ;;;
      write_chunks filepath (S i) rest
  end.

(** The whole [for] loop over [resp.iter_content(chunk_size=8192)],
    including the failure of the iterator itself. *)
Definition stream_body (filepath : string) (resp : Response) : M unit :=
  write_chunks filepath 0 (iter_content resp) ;;;
  match iter_error resp with
  | Some msg => raise (RequestException msg)
  | None => ret tt
  end.

Definition download_image (u : string) : M (option string) :=
  let* r := try_except
              (let* resp := py_requests_get u in
               raise_for_status resp ;;;
               ret resp)
              isinstance_RequestException in
  match r with
  | inl e =>
      print ("[Error] Network or request error: " +:+ str_exn e) ;;;
      ret None
  | inr resp =>
      let content_type := content_type_of resp in
      if negb (Py.startswith content_type "image") then
        print ("[Error] The URL does not appear to be an image (Content-Type: "
                 +:+ content_type +:+ ").") ;;;
        ret None
      else
        let* filename := get_filename_from_url u resp in
        let filepath := path_join FETCH_DIR filename in
        let* r := try_except
                    (open_wb filepath ;;;
                     stream_body filepath resp ;;;
                     ret filepath)
                    isinstance_OSError in
        match r with
        | inr saved => ret (Some saved)
        | inl e =>
            print ("[Error] Failed to save image: " +:+ str_exn e) ;;;
            ret None
        end
  end.

(** [input(prompt)]. *)
Definition input (prompt : string) : M string :=
  emit (Prompt prompt) ;;;
  match stdin w with
  | Some line => ret line
  | None => raise EOFError
  end.

Definition main : M unit :=
  ensure_fetch_dir ;;;
  let* line := input "Enter the image URL (http/https): " in
  let u := Py.strip line in
  if negb (Py.truthy u) then print "No URL entered. Exiting."
  else
    let* parsed := py_urlparse u in
    if negb (String.eqb (scheme parsed) "http" || String.eqb (scheme parsed) "https")
    then print "Please enter a valid HTTP or HTTPS URL."
    else
      print "Downloading... this may take a few seconds." ;;;
      let* saved_path := download_image u in
      match saved_path with
      | Some p =>
          print ("✅ Image saved to: " +:+ p) ;;;
          print "You can share images from the Fetched_Images folder later."
      | None => print "❌ Image download failed. See error message above."
      end.

End Program.

(** The exit status of the interpreter after running [main] as a script:
    0 on a normal return, 1 when an exception reaches the top level. *)
Definition exit_code {A} (r : Res A) : Z :=
  match r with
  | Ret _ => 0
  | Raise _ => 1
  end.

(** ** The conceptual outcomes of one download attempt

    [download_image] returns a path or [None] and prints the diagnostic;
    the outcomes of the specification's [FetchResult] are read off that
    pair. Each predicate relates the state before, the result and the
    state after; [detail] is the diagnostic text. *)

Definition emitted (st st' : State) (evs : list Event) : Prop :=
  trace st' = trace st ++ evs.

Definition Success (saved : string) (r : Res (option string) * State) : Prop :=
  r.1 = Ret (Some saved).

Definition NetworkError (u detail : string) (st : State)
    (r : Res (option string) * State) : Prop :=
  r.1 = Ret None ∧
  emitted st r.2 [HttpGet u; Print ("[Error] Network or request error: " +:+ detail)].

Definition NotAnImage (u detail : string) (st : State)
    (r : Res (option string) * State) : Prop :=
  r.1 = Ret None ∧
  emitted st r.2
    [HttpGet u;
     Print ("[Error] The URL does not appear to be an image (Content-Type: "
              +:+ detail +:+ ").")].

Definition WriteError (u detail : string) (st : State)
    (r : Res (option string) * State) : Prop :=
  r.1 = Ret None ∧
  emitted st r.2 [HttpGet u; Print ("[Error] Failed to save image: " +:+ detail)].

(** ** Reading the runs

    Auxiliary vocabulary for stating what a run did to the state. *)

(** [st'] differs from [st] at most in the content of the file [fp]. *)
Definition touches_only (fp : string) (st st' : State) : Prop :=
  trace st' = trace st ∧ dirs (fs st') = dirs (fs st) ∧
  ∀ q, q ≠ fp → files (fs st') !! q = files (fs st) !! q.

(** The state once [evs] have been appended to the trace. *)
Definition logged (st : State) (evs : list Event) : State :=
  {| fs := fs st; trace := trace st ++ evs |}.

(** The body of the first [try] of [download_image], with its handler
    class: the GET and the status check. *)
Definition checked_get (w : World) (u : string) : M (Exn + Response) :=
  try_except
    (let* resp := py_requests_get w u in
     raise_for_status resp ;;;
     ret resp)
    isinstance_RequestException.

(** The body of the second [try]: open, stream, and hand the path
    back. *)
Definition save_to (w : World) (filepath : string) (resp : Response) : M string :=
  open_wb w filepath ;;;
  stream_body w filepath resp ;;;
  ret filepath.

(** ** Vocabulary of the specification *)

(** The final segment of the percent-decoded URL path: the candidate
    name the resolver looks at. *)
Definition url_candidate (w : World) (parsed : ParseResult) : string :=
  Py.basename (unquote w (path parsed)).

(** The URL path gives a usable filename: the candidate is non-empty
    and has a ["."]. *)
Definition has_path_extension (w : World) (parsed : ParseResult) : Prop :=
  url_candidate w parsed ≠ "" ∧ Py.contains "." (url_candidate w parsed) = true.

Definition no_path_extension (w : World) (parsed : ParseResult) : Prop :=
  url_candidate w parsed = "" ∨ Py.contains "." (url_candidate w parsed) = false.

(** The subtype of a content type: what follows its (last) ["/"]. *)
Definition subtype (content_type : string) : string :=
  Py.split_last "/" content_type.

(** The ordered fallback of the specification for the extension of a
    generated name. *)
Definition fallback_extension (content_type : string) : string :=
  match COMMON_IMAGE_EXT !! content_type with
  | Some ext => ext
  | None =>
      if Py.startswith content_type "image/" then "." +:+ subtype content_type
      else ".jpg"
  end.

(** The name the resolver generates for extension [ext]. *)
Definition generated_name (w : World) (ext : string) : string :=
  "image_" +:+ Py.str_int (Z.of_N (time_time w)) +:+ "_"
    +:+ short_id_of (uuid4 w) +:+ ext.

Definition is_digit (a : ascii) : bool :=
  let n := N_of_ascii a in ((48 <=? n) && (n <=? 57))%N.

Definition is_lower_hex (a : ascii) : bool :=
  let n := N_of_ascii a in
  ((48 <=? n) && (n <=? 57) || (97 <=? n) && (n <=? 102))%N.

Fixpoint all_chars (P : ascii → bool) (s : string) : bool :=
  match s with
  | EmptyString => true
  | String a r => P a && all_chars P r
  end.

(** [name] has the shape [image_<digits>_<6 lower-case hex chars><ext>]. *)
Definition generated_name_pattern (ext name : string) : Prop :=
  ∃ digits hexs : string,
    name = "image_" +:+ digits +:+ "_" +:+ hexs +:+ ext ∧
    digits ≠ "" ∧ all_chars is_digit digits = true ∧
    String.length hexs = 6%nat ∧ all_chars is_lower_hex hexs = true.

(** The status of a response is in the 2xx range; it is a 4xx or 5xx
    error status. *)
Definition is_2xx (resp : Response) : Prop := 200 ≤ status_code resp < 300.
Definition is_4xx_5xx (resp : Response) : Prop := 400 ≤ status_code resp < 600.

(** The run of [download_image] leaves the filesystem as it found it. *)
Definition filesystem_unchanged (st : State) (r : Res (option string) * State) : Prop :=
  fs r.2 = fs st.

(** "Every non-2xx status and every failure of the GET is reported as a
    network error, and nothing is written", for one launch. *)
Definition non_2xx_is_network_error (w : World) (u : string) (st : State) : Prop :=
  (∀ msg, requests_get w u = inl msg →
     NetworkError u msg st (download_image w u st) ∧
     filesystem_unchanged st (download_image w u st)) ∧
  (∀ resp, requests_get w u = inr resp → ¬ is_2xx resp →
     ∃ detail, NetworkError u detail st (download_image w u st) ∧
               filesystem_unchanged st (download_image w u st)).

(** "Two saves for an extension-less URL never share a generated name",
    for two launches [w1] then [w2]. *)
Definition generated_names_differ (w1 w2 : World) (u : string)
    (r1 r2 : Response) (st1 st2 : State) : Prop :=
  ∀ p1 p2, urlparse w1 u = inr p1 → urlparse w2 u = inr p2 →
    no_path_extension w1 p1 → no_path_extension w2 p2 →
    (get_filename_from_url w1 u r1 st1).1 ≠ (get_filename_from_url w2 u r2 st2).1.

(** The prompt is reached: [ensure_fetch_dir] finds or creates the
    directory. *)
Definition fetch_dir_available (w : World) (st : State) : Prop :=
  FETCH_DIR ∈ dirs (fs st) ∨ mkdir_error w = None.

(** The URL typed at the prompt, stripped, is rejected by [main] with
    a message: it is empty, or [urlparse] accepts it and finds a
    scheme other than http and https. *)
Definition invalid_input (w : World) (line : string) : Prop :=
  Py.strip line = "" ∨
  ∃ parsed, urlparse w (Py.strip line) = inr parsed ∧
            scheme parsed ≠ "http" ∧ scheme parsed ≠ "https".

(** No HTTP request is among the events [evs]. *)
Definition issues_no_request (evs : list Event) : Prop :=
  ∀ target, HttpGet target ∉ evs.

(** ** Sample launches *)

Module Sample.

Definition no_dir : State :=
  {| fs := {| dirs := ∅; files := ∅ |}; trace := [] |}.

Definition ready : State :=
  {| fs := {| dirs := {[FETCH_DIR]}; files := ∅ |}; trace := [] |}.

Definition png_chunks : list bytes :=
  [ [Byte.x89; Byte.x50; Byte.x4e; Byte.x47]; []; [Byte.x0d; Byte.x0a] ].

Definition jpg_chunks : list bytes := [ [Byte.xff; Byte.xd8]; [Byte.xff] ].

Definition response (code : Z) (why : string) (hdrs : gmap string string)
    (chunks : list bytes) : Response :=
  {| status_code := code; reason := why; url := "http://example.com/cat";
     headers := hdrs; iter_content := chunks; iter_error := None |}.

Definition png_headers : gmap string string :=
  {[ "content-type" := "Image/PNG; q=1" ]}.

Definition ok_png : Response := response 200 "OK" png_headers png_chunks.
Definition ok_html : Response :=
  response 200 "OK" {[ "content-type" := "text/html; charset=utf-8" ]} [].
Definition ok_bare : Response := response 200 "OK" ∅ png_chunks.
Definition not_found : Response := response 404 "Not Found" png_headers [].
Definition not_modified : Response := response 304 "Not Modified" png_headers [].

(** A launch in which the user types [typed], the URL parses to
    [parsed], the GET answers [got], and the operating system is as
    [mkdir_err] says about creating the directory. *)
Definition world (typed : string) (parsed : string + ParseResult)
    (got : string + Response) (seconds uuid : N)
    (mkdir_err : option string) : World :=
  {| urlparse := λ _, parsed; unquote := λ s, s; stdin := Some typed;
     time_time := seconds; uuid4 := uuid; requests_get := λ _, got;
     mkdir_error := mkdir_err; open_error := λ _, None;
     write_error := λ _, None |}.

Definition cat_url : string := "http://example.com/cat".
Definition cat : ParseResult := {| scheme := "http"; path := "/cat" |}.
Definition cat_png : ParseResult := {| scheme := "http"; path := "/pics/cat.png" |}.
Definition ftp_cat : ParseResult := {| scheme := "ftp"; path := "/cat" |}.

Definition uuid_a : N := 0xabcdef0123454789abcdef0123456789.
Definition uuid_b : N := 0xabcdef98765442109edcba9876543210.
Definition uuid_c : N := 0x123456789abc4ef08234567890abcdef.

Definition fetch (got : string + Response) (seconds uuid : N) : World :=
  world cat_url (inr cat) got seconds uuid None.

Definition ok_jpg : Response :=
  response 200 "OK" {[ "content-type" := "image/png" ]} jpg_chunks.

Definition permission_denied : string :=
  "[Errno 13] Permission denied: 'Fetched_Images'".

Definition saved_cat : string := "Fetched_Images/image_1700000000_abcdef.png".

End Sample.


(** ** The ways an attempt can go

    Further vocabulary for [download_image] and [main] as wholes. *)

(** The response to [u] is past the status check and the content-type
    gate of [download_image]. *)
Definition passes_gates (w : World) (u : string) (resp : Response) : Prop :=
  requests_get w u = inr resp ∧
  Py.truthy (http_error_msg resp) = false ∧
  Py.startswith (content_type_of resp) "image" = true.

(** The seven ways through [download_image], each with the result and
    the final state it leads to. *)
Inductive Attempt (w : World) (u : string) (st : State) :
    Res (option string) * State → Prop :=
  | attempt_request_failed msg :
      requests_get w u = inl msg →
      Attempt w u st
        (Ret None,
         logged st [HttpGet u; Print ("[Error] Network or request error: " +:+ msg)])
  | attempt_http_error resp :
      requests_get w u = inr resp →
      Py.truthy (http_error_msg resp) = true →
      Attempt w u st
        (Ret None,
         logged st [HttpGet u;
                    Print ("[Error] Network or request error: "
                             +:+ http_error_msg resp)])
  | attempt_not_image resp :
      requests_get w u = inr resp →
      Py.truthy (http_error_msg resp) = false →
      Py.startswith (content_type_of resp) "image" = false →
      Attempt w u st
        (Ret None,
         logged st
           [HttpGet u;
            Print ("[Error] The URL does not appear to be an image (Content-Type: "
                     +:+ content_type_of resp +:+ ").")])
  | attempt_unparsable resp msg :
      passes_gates w u resp →
      urlparse w u = inl msg →
      Attempt w u st (Raise (ValueError msg), logged st [HttpGet u])
  | attempt_bad_name resp name :
      passes_gates w u resp →
      (get_filename_from_url w u resp st).1 = Ret name →
      Py.contains Py.NUL (path_join FETCH_DIR name) = true →
      Attempt w u st
        (Raise (ValueError "embedded null byte"), logged st [HttpGet u])
  | attempt_saved resp name st' :
      passes_gates w u resp →
      (get_filename_from_url w u resp st).1 = Ret name →
      save_to w (path_join FETCH_DIR name) resp (logged st [HttpGet u])
      = (Ret (path_join FETCH_DIR name), st') →
      Attempt w u st (Ret (Some (path_join FETCH_DIR name)), st')
  | attempt_save_failed resp name e st1 :
      passes_gates w u resp →
      (get_filename_from_url w u resp st).1 = Ret name →
      save_to w (path_join FETCH_DIR name) resp (logged st [HttpGet u])
      = (Raise e, st1) →
      isinstance_OSError e = true →
      Attempt w u st
        (Ret None,
         logged st1 [Print ("[Error] Failed to save image: " +:+ str_exn e)]).

(** The operating system and the network refuse nothing while the
    body of [resp] is saved. *)
Definition nothing_refuses (w : World) (resp : Response) : Prop :=
  (∀ fp, open_error w fp = None) ∧ (∀ k, write_error w k = None) ∧
  iter_error resp = None.

(** The URL typed at the prompt is accepted by [main]: stripped, it is
    non-empty and parses to the scheme http or https. *)
Definition valid_input (w : World) (line : string) : Prop :=
  Py.strip line ≠ "" ∧
  ∃ parsed, urlparse w (Py.strip line) = inr parsed ∧
            (scheme parsed = "http" ∨ scheme parsed = "https").

(** The state in which [main] calls [download_image]: the directory is
    there, the prompt and the progress line have been shown. *)
Definition at_download (st1 : State) : State :=
  logged st1 [Prompt "Enter the image URL (http/https): ";
              Print "Downloading... this may take a few seconds."].

(** The seven ways through [main], each with the result and the final
    state it leads to; [st1] is the state once the directory is there. *)
Inductive MainRun (w : World) (st : State) : Res unit * State → Prop :=
  | run_mkdir_refused msg :
      FETCH_DIR ∉ dirs (fs st) → mkdir_error w = Some msg →
      MainRun w st (Raise (OSError msg), st)
  | run_end_of_input st1 :
      ensure_fetch_dir w st = (Ret tt, st1) →
      stdin w = None →
      MainRun w st
        (Raise EOFError, logged st1 [Prompt "Enter the image URL (http/https): "])
  | run_rejected st1 line msg :
      ensure_fetch_dir w st = (Ret tt, st1) →
      stdin w = Some line →
      invalid_input w line →
      MainRun w st
        (Ret tt, logged st1 [Prompt "Enter the image URL (http/https): "; Print msg])
  | run_unparsable st1 line msg :
      ensure_fetch_dir w st = (Ret tt, st1) →
      stdin w = Some line →
      Py.strip line ≠ "" →
      urlparse w (Py.strip line) = inl msg →
      MainRun w st
        (Raise (ValueError msg),
         logged st1 [Prompt "Enter the image URL (http/https): "])
  | run_crashed st1 line e st3 :
      ensure_fetch_dir w st = (Ret tt, st1) →
      stdin w = Some line →
      valid_input w line →
      download_image w (Py.strip line) (at_download st1) = (Raise e, st3) →
      MainRun w st (Raise e, st3)
  | run_saved st1 line saved st3 :
      ensure_fetch_dir w st = (Ret tt, st1) →
      stdin w = Some line →
      valid_input w line →
      download_image w (Py.strip line) (at_download st1) = (Ret (Some saved), st3) →
      MainRun w st
        (Ret tt,
         logged st3 [Print ("✅ Image saved to: " +:+ saved);
                     Print "You can share images from the Fetched_Images folder later."])
  | run_failed st1 line st3 :
      ensure_fetch_dir w st = (Ret tt, st1) →
      stdin w = Some line →
      valid_input w line →
      download_image w (Py.strip line) (at_download st1) = (Ret None, st3) →
      MainRun w st
        (Ret tt, logged st3 [Print "❌ Image download failed. See error message above."]).

(** The number of HTTP requests among the events [evs]. *)
Fixpoint count_requests (evs : list Event) : nat :=
  match evs with
  | [] => 0
  | HttpGet _ :: rest => S (count_requests rest)
  | _ :: rest => count_requests rest
  end.

(** ** Launches in which something goes wrong *)

Module Faulty.

Definition world (line : option string) (parsed : string + ParseResult)
    (got : string + Response) (open_err : string → option string)
    (write_err : nat → option string) : World :=
  {| urlparse := λ _, parsed; unquote := λ s, s; stdin := line;
     time_time := 1700000000; uuid4 := Sample.uuid_a; requests_get := λ _, got;
     mkdir_error := Some Sample.permission_denied; open_error := open_err;
     write_error := write_err |}.

Definition no_refusal {A} : A → option string := λ _, None.

Definition timed_out : Response :=
  {| status_code := 200; reason := "OK"; url := Sample.cat_url;
     headers := Sample.png_headers;
     iter_content := [[Byte.x89; Byte.x50]; [Byte.x4e]];
     iter_error := Some "Read timed out." |}.

Definition imagex : Response :=
  Sample.response 200 "OK" {[ "content-type" := "imagex/foo" ]} Sample.png_chunks.

Definition bad_url : string := "http://[example.com/cat".

(** The user types an ftp URL with an unclosed bracket, on which
    [urlparse] raises; nothing else is wrong. *)
Definition ftp_bracket_url : string := "ftp://[example.com/cat".

Definition typed_ftp_bracket : World :=
  {| urlparse := λ u, if String.eqb u ftp_bracket_url
                      then inl "Invalid IPv6 URL" else inr Sample.ftp_cat;
     unquote := λ s, s; stdin := Some ftp_bracket_url;
     time_time := 1700000000; uuid4 := Sample.uuid_a;
     requests_get := λ _, inl "unreachable"; mkdir_error := None;
     open_error := no_refusal; write_error := no_refusal |}.

(** The user types a URL whose last path segment decodes to a name
    holding U+0000; the server answers with an image. *)
Definition nul_url : string := "http://example.com/a%00.png".
Definition nul_parsed : ParseResult := {| scheme := "http"; path := "/a%00.png" |}.
Definition nul_name : string := "a" +:+ String Py.NUL ".png".

Definition typed_nul : World :=
  {| urlparse := λ _, inr nul_parsed;
     unquote := λ s, if String.eqb s "/a%00.png" then "/" +:+ nul_name else s;
     stdin := Some nul_url;
     time_time := 1700000000; uuid4 := Sample.uuid_a;
     requests_get := λ _, inr Sample.ok_png; mkdir_error := None;
     open_error := no_refusal; write_error := no_refusal |}.

(** Standard input is at end of file; nothing else is wrong. *)
Definition at_eof : World :=
  {| urlparse := λ _, inr Sample.cat; unquote := λ s, s; stdin := None;
     time_time := 1700000000; uuid4 := Sample.uuid_a;
     requests_get := λ _, inr Sample.ok_png; mkdir_error := None;
     open_error := no_refusal; write_error := no_refusal |}.

End Faulty.

(** * Verification *)

(** ** The primitives on sample values *)

Example basename_ex1 : Py.basename "/a/b.c" = "b.c".
Proof. reflexivity. Qed.
Example basename_ex2 : Py.basename "/a/b/" = "".
Proof. reflexivity. Qed.
Example basename_ex3 : Py.basename "/." = ".".
Proof. reflexivity. Qed.
Example split_first_ex : Py.split_first ";" "image/png; charset=x" = "image/png".
Proof. reflexivity. Qed.
Example lower_ex : Py.lower "IMAGE/Png" = "image/png".
Proof. reflexivity. Qed.
Example strip_ex : Py.strip "  http://a b  " = "http://a b".
Proof. reflexivity. Qed.
Example str_int_ex : Py.str_int 1700000000 = "1700000000".
Proof. reflexivity. Qed.
Example str_int_neg_ex : Py.str_int (-5) = "-5".
Proof. reflexivity. Qed.
Example str_int_zero_ex : Py.str_int 0 = "0".
Proof. reflexivity. Qed.
Example hex32_ex : Py.hex32 5 = "00000000000000000000000000000005".
Proof. reflexivity. Qed.
Example hex32_ex2 : Py.take 6 (Py.hex32 (0xabcdef * 2 ^ 104 + 17)) = "abcdef".
Proof. vm_compute. reflexivity. Qed.

(** ** Facts about the string primitives *)

Section StringFacts.

Implicit Types s t p : string.

Lemma or_empty s : Py.or_ s "" = s.
Proof. by destruct s. Qed.

Lemma truthy_true s : Py.truthy s = true ↔ s ≠ "".
Proof. destruct s; simpl; split; (done || congruence). Qed.

Lemma startswith_app p s : Py.startswith (p +:+ s) p = true.
Proof. induction p as [|a p IH]; simpl; [done|]. by rewrite Ascii.eqb_refl. Qed.

Lemma split_last_no_sep c s : Py.contains c s = false → Py.split_last c s = s.
Proof.
  destruct s as [|a s]; simpl; [done|].
  destruct (Ascii.eqb a c); [done|]. by intros ->.
Qed.

Lemma contains_app c s t :
  Py.contains c (s +:+ t) = Py.contains c s || Py.contains c t.
Proof.
  induction s as [|a s IH]; simpl; [done|]. by destruct (Ascii.eqb a c).
Qed.

(** With a separator-free tail, [split(c)[-1]] of [p + c + t] is [t]. *)
Lemma split_last_app c p t :
  Py.contains c t = false → Py.split_last c (p +:+ String c t) = t.
Proof.
  intros Ht. induction p as [|a p IH]; simpl.
  - by rewrite Ht, Ascii.eqb_refl.
  - rewrite contains_app. simpl. rewrite Ascii.eqb_refl.
    by rewrite orb_true_r.
Qed.

Lemma length_app s t :
  String.length (s +:+ t) = (String.length s + String.length t)%nat.
Proof. induction s; simpl; [done|]. by f_equal. Qed.

Lemma length_zeros k : String.length (Py.zeros k) = k.
Proof. induction k; simpl; [done|]. by f_equal. Qed.

Lemma length_take k s :
  (k ≤ String.length s)%nat → String.length (Py.take k s) = k.
Proof.
  revert s. induction k as [|k IH]; intros [|a s] H; simpl in *; try done; try lia.
  f_equal. apply IH. lia.
Qed.

(** Two concatenations that agree, with left parts of equal length,
    agree part by part. *)
Lemma app_inj_length s1 s2 t1 t2 :
  String.length s1 = String.length s2 →
  s1 +:+ t1 = s2 +:+ t2 → s1 = s2 ∧ t1 = t2.
Proof.
  revert s2. induction s1 as [|a s1 IH]; intros [|b s2] Hl H; simpl in *; try done.
  injection H as -> H. destruct (IH s2) as [-> ->]; [lia|done|done].
Qed.

(** A separator-free field followed by the separator can be read back
    unambiguously. *)
Lemma app_sep_inj c s1 s2 t1 t2 :
  Py.contains c s1 = false → Py.contains c s2 = false →
  s1 +:+ String c t1 = s2 +:+ String c t2 → s1 = s2 ∧ t1 = t2.
Proof.
  revert s2. induction s1 as [|a s1 IH]; intros [|b s2] H1 H2 H; simpl in *.
  - by injection H as ->.
  - injection H as <- _. by rewrite Ascii.eqb_refl in H2.
  - injection H as -> _. by rewrite Ascii.eqb_refl in H1.
  - injection H as -> H.
    destruct (Ascii.eqb b c); [done|].
    destruct (IH s2) as [-> ->]; done.
Qed.

End StringFacts.

(** A path under [FETCH_DIR] holds U+0000 exactly when the name does. *)
Lemma path_join_nul name :
  Py.contains Py.NUL (path_join FETCH_DIR name) = Py.contains Py.NUL name.
Proof.
  unfold path_join.
  destruct (String.eqb_spec name "") as [->|]; [done|].
  destruct (String.eqb_spec name ".") as [->|]; [done|].
  cbn [orb]. by rewrite !contains_app.
Qed.

(** ** Character classes and the rendering of numbers *)

Section NumberFacts.

Lemma all_chars_app P s t :
  all_chars P (s +:+ t) = all_chars P s && all_chars P t.
Proof. induction s as [|a s IH]; simpl; [done|]. by rewrite IH, andb_assoc. Qed.

Lemma all_chars_take P k s : all_chars P s = true → all_chars P (Py.take k s) = true.
Proof.
  revert s. induction k as [|k IH]; intros [|a s]; simpl; try done.
  intros [-> H]%andb_true_iff. simpl. by apply IH.
Qed.

Lemma all_chars_zeros k : all_chars is_lower_hex (Py.zeros k) = true.
Proof. induction k; simpl; done. Qed.

Lemma all_chars_not_contains P c s :
  P c = false → all_chars P s = true → Py.contains c s = false.
Proof.
  intros Hc. induction s as [|a s IH]; simpl; [done|].
  intros [Ha H]%andb_true_iff.
  destruct (Ascii.eqb_spec a c) as [->|]; [congruence|by apply IH].
Qed.

Lemma decimal_uint_digits d :
  all_chars is_digit (DecimalString.NilEmpty.string_of_uint d) = true.
Proof. induction d; simpl; done. Qed.

Lemma decimal_nilzero_digits d :
  all_chars is_digit (DecimalString.NilZero.string_of_uint d) = true.
Proof. destruct d; try done; apply (decimal_uint_digits (_ d)). Qed.

Lemma hex_uint_chars d :
  all_chars is_lower_hex (HexadecimalString.NilEmpty.string_of_uint d) = true.
Proof. induction d; simpl; done. Qed.

Lemma hex_nilzero_chars d :
  all_chars is_lower_hex (HexadecimalString.NilZero.string_of_uint d) = true.
Proof. destruct d; try done; apply (hex_uint_chars (_ d)). Qed.

(** [str(n)] of a non-negative [n] is a non-empty run of digits. *)
Lemma str_int_digits n :
  0 ≤ n → all_chars is_digit (Py.str_int n) = true ∧ Py.str_int n ≠ "".
Proof.
  intros Hn. unfold Py.str_int. destruct n as [|p|p]; [done| |lia].
  simpl. split; [apply decimal_nilzero_digits|].
  pose proof (DecimalPos.Unsigned.to_uint_nonnil p) as Hp.
  by destruct (Pos.to_uint p).
Qed.

(** [str] is injective on integers. *)
Lemma str_int_inj n m : Py.str_int n = Py.str_int m → n = m.
Proof.
  assert (Hparse : ∀ k, DecimalString.NilZero.int_of_string (Py.str_int k)
                        = Some (Z.to_int k)).
  { intros k. unfold Py.str_int. apply DecimalString.NilZero.isi.
    - destruct k as [|p|p]; simpl; try done.
      intros [= Hp]. by apply (DecimalPos.Unsigned.to_uint_nonnil p).
    - destruct k as [|p|p]; simpl; try done.
      intros [= Hp]. by apply (DecimalPos.Unsigned.to_uint_nonnil p). }
  intros H. apply DecimalZ.to_int_inj.
  pose proof (Hparse n) as Hn. rewrite H, Hparse in Hn. congruence.
Qed.

(** No underscore occurs in [str(n)]. *)
Lemma str_int_no_underscore n : Py.contains "_" (Py.str_int n) = false.
Proof.
  unfold Py.str_int. destruct n as [|p|p]; [done| |]; simpl.
  - by apply (all_chars_not_contains is_digit), decimal_nilzero_digits.
  - by apply (all_chars_not_contains is_digit), decimal_nilzero_digits.
Qed.

Lemma hex32_length n : (32 ≤ String.length (Py.hex32 n))%nat.
Proof. unfold Py.hex32. rewrite length_app, length_zeros. lia. Qed.

Lemma hex32_chars n : all_chars is_lower_hex (Py.hex32 n) = true.
Proof.
  unfold Py.hex32. by rewrite all_chars_app, all_chars_zeros, hex_nilzero_chars.
Qed.

End NumberFacts.


(** ** The filename resolver *)

Section Resolver.

Variable w : World.

Lemma common_image_ext_truthy content_type ext :
  COMMON_IMAGE_EXT !! content_type = Some ext → Py.truthy ext = true.
Proof.
  revert content_type ext.
  change (map_Forall (λ _ ext, Py.truthy ext = true) COMMON_IMAGE_EXT).
  unfold COMMON_IMAGE_EXT. cbn [list_to_map foldr fst snd].
  repeat (apply map_Forall_insert_2; [reflexivity|]).
  apply map_Forall_empty.
Qed.

Lemma no_path_extension_test parsed :
  no_path_extension w parsed →
  Py.truthy (url_candidate w parsed) && Py.contains "." (url_candidate w parsed) = false.
Proof. intros [-> | ->]; [done|]. apply andb_false_r. Qed.

(** The extension the code settles on is the specification's ordered
    fallback. *)
Lemma resolver_generates u response st parsed :
  urlparse w u = inr parsed →
  no_path_extension w parsed →
  get_filename_from_url w u response st
  = (Ret (generated_name w (fallback_extension (content_type_of response))), st).
Proof.
  intros Hparse Hno%no_path_extension_test.
  unfold get_filename_from_url, py_urlparse, bind. rewrite Hparse. cbn [ret].
  rewrite or_empty. fold (url_candidate w parsed). rewrite Hno.
  unfold generated_name, fallback_extension, ret, subtype.
  destruct (COMMON_IMAGE_EXT !! content_type_of response) as [ext|] eqn:Hext.
  - cbn [Py.truthy_opt]. rewrite (common_image_ext_truthy _ _ Hext).
    cbn [negb andb Py.truthy_opt]. by rewrite (common_image_ext_truthy _ _ Hext).
  - cbn [Py.truthy_opt negb andb].
    destruct (Py.startswith (content_type_of response) "image/"); reflexivity.
Qed.

Lemma short_id_shape u :
  String.length (short_id_of u) = 6%nat ∧ all_chars is_lower_hex (short_id_of u) = true.
Proof.
  unfold short_id_of. split.
  - apply length_take. pose proof (hex32_length u). lia.
  - apply all_chars_take, hex32_chars.
Qed.

Lemma generated_name_matches ext :
  generated_name_pattern ext (generated_name w ext).
Proof.
  exists (Py.str_int (Z.of_N (time_time w))), (short_id_of (uuid4 w)).
  destruct (str_int_digits (Z.of_N (time_time w))) as [Hd Hne]; [lia|].
  destruct (short_id_shape (uuid4 w)) as [Hl Hh]. done.
Qed.

End Resolver.

(** Reading a generated name back: the timestamp and the six-character
    suffix are determined by the name. *)
Lemma generated_name_inj w1 w2 ext1 ext2 :
  generated_name w1 ext1 = generated_name w2 ext2 →
  time_time w1 = time_time w2 ∧ short_id_of (uuid4 w1) = short_id_of (uuid4 w2)
  ∧ ext1 = ext2.
Proof.
  unfold generated_name. intros H. simpl in H.
  injection H as H.
  apply app_sep_inj in H as [Ht H]; [|apply str_int_no_underscore..].
  apply app_inj_length in H as [Hs He].
  - apply str_int_inj, N2Z.inj in Ht. done.
  - destruct (short_id_shape (uuid4 w1)) as [-> _].
    by destruct (short_id_shape (uuid4 w2)) as [-> _].
Qed.

Lemma fallback_tiff : fallback_extension "image/tiff" = ".tiff".
Proof. reflexivity. Qed.

Lemma fallback_png : fallback_extension "image/png" = ".png".
Proof. reflexivity. Qed.

Lemma fallback_not_image : fallback_extension "application/octet-stream" = ".jpg".
Proof. reflexivity. Qed.

(** For a well-formed [image/<subtype>] outside the table the
    extension is the subtype itself. *)
Lemma fallback_subtype sub :
  Py.contains "/" sub = false →
  COMMON_IMAGE_EXT !! ("image/" +:+ sub) = None →
  fallback_extension ("image/" +:+ sub) = "." +:+ sub.
Proof.
  intros Hsub Hnone. unfold fallback_extension. rewrite Hnone.
  rewrite startswith_app. unfold subtype.
  f_equal. exact (split_last_app "/" "image" sub Hsub).
Qed.


(** ** The downloader *)

Lemma touches_only_refl fp st : touches_only fp st st.
Proof. done. Qed.

Lemma touches_only_trans fp st1 st2 st3 :
  touches_only fp st1 st2 → touches_only fp st2 st3 → touches_only fp st1 st3.
Proof.
  intros (Ht1 & Hd1 & Hf1) (Ht2 & Hd2 & Hf2). split; [congruence|].
  split; [congruence|]. intros q Hq. rewrite Hf2, Hf1; done.
Qed.

Lemma truthy_app_nonempty s a t : Py.truthy (s +:+ String a t) = true.
Proof. by destruct s. Qed.

Lemma http_error_msg_truthy resp :
  is_4xx_5xx resp → Py.truthy (http_error_msg resp) = true.
Proof.
  unfold is_4xx_5xx, http_error_msg. intros [Hlo Hhi].
  destruct (Z.ltb_spec (status_code resp) 500).
  - replace (400 <=? status_code resp) with true by lia.
    cbn [andb]. apply truthy_app_nonempty.
  - replace (400 <=? status_code resp) with true by lia. cbn [andb].
    replace (500 <=? status_code resp) with true by lia.
    replace (status_code resp <? 600) with true by lia.
    cbn [andb]. apply truthy_app_nonempty.
Qed.

Lemma http_error_msg_2xx resp : is_2xx resp → http_error_msg resp = "".
Proof.
  unfold is_2xx, http_error_msg. intros [Hlo Hhi].
  replace (status_code resp <? 500) with true by lia.
  replace (400 <=? status_code resp) with false by lia.
  by replace (500 <=? status_code resp) with false by lia.
Qed.

Section Downloader.

Variable w : World.

(** *** The request and the status check *)

Lemma checked_get_failed u st msg :
  requests_get w u = inl msg →
  checked_get w u st = (Ret (inl (RequestException msg)), logged st [HttpGet u]).
Proof.
  intros H. unfold checked_get, try_except, py_requests_get, bind, emit.
  by rewrite H.
Qed.

Lemma checked_get_http_error u st resp :
  requests_get w u = inr resp →
  Py.truthy (http_error_msg resp) = true →
  checked_get w u st
  = (Ret (inl (RequestException (http_error_msg resp))), logged st [HttpGet u]).
Proof.
  intros H Hmsg.
  unfold checked_get, try_except, py_requests_get, raise_for_status, bind, emit.
  rewrite H. cbn [ret]. by rewrite Hmsg.
Qed.

Lemma checked_get_passed u st resp :
  requests_get w u = inr resp →
  Py.truthy (http_error_msg resp) = false →
  checked_get w u st = (Ret (inr resp), logged st [HttpGet u]).
Proof.
  intros H Hmsg.
  unfold checked_get, try_except, py_requests_get, raise_for_status, bind, emit.
  rewrite H. cbn [ret]. by rewrite Hmsg.
Qed.

Lemma download_image_unfold u :
  download_image w u
  = (let* r := checked_get w u in
     match r with
     | inl e =>
         print ("[Error] Network or request error: " +:+ str_exn e) ;;;
         ret None
     | inr resp =>
         let content_type := content_type_of resp in
         if negb (Py.startswith content_type "image") then
           print ("[Error] The URL does not appear to be an image (Content-Type: "
                    +:+ content_type +:+ ").") ;;;
           ret None
         else
           let* filename := get_filename_from_url w u resp in
           let filepath := path_join FETCH_DIR filename in
           let* r := try_except (save_to w filepath resp) isinstance_OSError in
           match r with
           | inr saved => ret (Some saved)
           | inl e =>
               print ("[Error] Failed to save image: " +:+ str_exn e) ;;;
               ret None
           end
     end).
Proof. reflexivity. Qed.

(** A failed GET and a 4xx/5xx status end the attempt at once. *)
Lemma download_request_failed u st msg :
  requests_get w u = inl msg →
  download_image w u st
  = (Ret None,
     logged st [HttpGet u; Print ("[Error] Network or request error: " +:+ msg)]).
Proof.
  intros H. rewrite download_image_unfold. unfold bind at 1.
  rewrite (checked_get_failed _ _ _ H).
  unfold bind, print, emit, ret. cbn. unfold logged. cbn.
  by rewrite <- (assoc_L (++)).
Qed.

Lemma download_http_error u st resp :
  requests_get w u = inr resp →
  Py.truthy (http_error_msg resp) = true →
  download_image w u st
  = (Ret None,
     logged st [HttpGet u;
                Print ("[Error] Network or request error: " +:+ http_error_msg resp)]).
Proof.
  intros H Hmsg. rewrite download_image_unfold. unfold bind at 1.
  rewrite (checked_get_http_error _ _ _ H Hmsg).
  unfold bind, print, emit, ret. cbn. unfold logged. cbn.
  by rewrite <- (assoc_L (++)).
Qed.

(** *** The content-type gate *)

Lemma download_not_image u st resp :
  requests_get w u = inr resp →
  Py.truthy (http_error_msg resp) = false →
  Py.startswith (content_type_of resp) "image" = false →
  download_image w u st
  = (Ret None,
     logged st
       [HttpGet u;
        Print ("[Error] The URL does not appear to be an image (Content-Type: "
                 +:+ content_type_of resp +:+ ").")]).
Proof.
  intros H Hmsg Hct. rewrite download_image_unfold. unfold bind at 1.
  rewrite (checked_get_passed _ _ _ H Hmsg). cbv zeta. rewrite Hct.
  unfold bind, print, emit, ret. cbn. unfold logged. cbn.
  by rewrite <- (assoc_L (++)).
Qed.

End Downloader.


Section Saving.

Variable w : World.

(** *** Writing the body *)

Lemma f_write_spec fp i chunk st old r st' :
  files (fs st) !! fp = Some old →
  f_write w fp i chunk st = (r, st') →
  touches_only fp st st' ∧
  match r with
  | Ret _ => files (fs st') !! fp = Some (old ++ chunk)
  | Raise e => isinstance_OSError e = true
  end.
Proof.
  intros Hold. unfold f_write. destruct (write_error w i) as [e|].
  - by intros [= <- <-].
  - unfold bind, get_fs, set_fs. rewrite Hold. intros [= <- <-]. cbn.
    split; [|apply lookup_insert_eq].
    repeat split. intros q Hq. cbn. by apply lookup_insert_ne.
Qed.

Lemma write_chunks_spec fp chunks : ∀ i st old r st',
  files (fs st) !! fp = Some old →
  write_chunks w fp i chunks st = (r, st') →
  touches_only fp st st' ∧
  match r with
  | Ret _ => files (fs st') !! fp = Some (old ++ concat chunks)
  | Raise e => isinstance_OSError e = true
  end.
Proof.
  induction chunks as [|chunk rest IH]; intros i st old r st' Hold.
  - intros [= <- <-]. cbn. by rewrite (right_id_L [] (++)).
  - cbn [write_chunks concat]. unfold bind.
    destruct chunk as [|b chunk]; cbn [Py.truthy_bytes].
    + cbn [ret app]. by apply IH.
    + destruct (f_write w fp i (b :: chunk) st) as [[[]|e] st1] eqn:Hw.
      * destruct (f_write_spec _ _ _ _ _ _ _ Hold Hw) as [Hto Hres].
        intros Hrest. destruct (IH _ _ _ _ _ Hres Hrest) as [Hto' Hres'].
        split; [by eapply touches_only_trans|].
        destruct r; [|done]. by rewrite Hres', <- (assoc_L (++)).
      * destruct (f_write_spec _ _ _ _ _ _ _ Hold Hw) as [Hto Hres].
        by intros [= <- <-].
Qed.

Lemma stream_body_spec fp resp st old r st' :
  files (fs st) !! fp = Some old →
  stream_body w fp resp st = (r, st') →
  touches_only fp st st' ∧
  match r with
  | Ret _ =>
      iter_error resp = None ∧
      files (fs st') !! fp = Some (old ++ concat (iter_content resp))
  | Raise e => isinstance_OSError e = true
  end.
Proof.
  intros Hold. unfold stream_body, bind.
  destruct (write_chunks w fp 0 (iter_content resp) st) as [[[]|e] st1] eqn:Hw;
    destruct (write_chunks_spec _ _ _ _ _ _ _ Hold Hw) as [Hto Hres].
  - destruct (iter_error resp); by intros [= <- <-].
  - by intros [= <- <-].
Qed.

Lemma save_to_spec fp resp st r st' :
  save_to w fp resp st = (r, st') →
  touches_only fp st st' ∧
  match r with
  | Ret saved =>
      saved = fp ∧
      iter_error resp = None ∧
      files (fs st') !! fp = Some (concat (iter_content resp))
  | Raise e =>
      (isinstance_OSError e = true ∧ Py.contains Py.NUL fp = false) ∨
      (e = ValueError "embedded null byte" ∧ Py.contains Py.NUL fp = true ∧ st' = st)
  end.
Proof.
  unfold save_to, open_wb.
  destruct (Py.contains Py.NUL fp) eqn:Hnul.
  { unfold bind, raise. intros [= <- <-]. split; [done|]. by right. }
  unfold bind at 1. unfold bind at 1. unfold get_fs.
  destruct (decide (FETCH_DIR ∈ dirs (fs st))) as [Hdir|Hdir];
    [|intros [= <- <-]; split; [done|by left]].
  destruct (open_error w fp) as [e|]; [intros [= <- <-]; split; [done|by left]|].
  unfold set_fs.
  set (st1 := {| fs := {| dirs := dirs (fs st); files := <[fp:=[]]> (files (fs st)) |};
                 trace := trace st |}).
  assert (Hopen : touches_only fp st st1).
  { repeat split. intros q Hq. cbn. by apply lookup_insert_ne. }
  assert (Hold : files (fs st1) !! fp = Some []) by apply lookup_insert_eq.
  unfold bind.
  destruct (stream_body w fp resp st1) as [[[]|e] st2] eqn:Hs;
    destruct (stream_body_spec _ _ _ _ _ _ Hold Hs) as [Hto Hres];
    intros [= <- <-]; (split; [by eapply touches_only_trans|]); [|by left].
  by destruct Hres.
Qed.

(** With the directory in place and no refusal from the OS or the
    network, saving goes through. *)
Lemma write_chunks_succeeds fp chunks : ∀ i st,
  (∀ k, write_error w k = None) →
  ∃ st', write_chunks w fp i chunks st = (Ret tt, st').
Proof.
  induction chunks as [|chunk rest IH]; intros i st Hw; [by eexists|].
  cbn [write_chunks]. unfold bind.
  destruct chunk as [|b chunk]; cbn [Py.truthy_bytes ret].
  - by apply IH.
  - unfold f_write. rewrite Hw. unfold bind, get_fs, set_fs. by apply IH.
Qed.

Lemma save_to_succeeds fp resp st :
  Py.contains Py.NUL fp = false →
  FETCH_DIR ∈ dirs (fs st) →
  open_error w fp = None →
  (∀ k, write_error w k = None) →
  iter_error resp = None →
  ∃ st', save_to w fp resp st = (Ret fp, st').
Proof.
  intros Hnul Hdir Hopen Hw Hiter. unfold save_to, open_wb. rewrite Hnul.
  unfold bind at 1. unfold bind at 1. unfold get_fs.
  destruct (decide (FETCH_DIR ∈ dirs (fs st))); [|done]. rewrite Hopen.
  unfold set_fs, stream_body, bind.
  edestruct (write_chunks_succeeds fp (iter_content resp) 0) as [st' ->]; [done|].
  rewrite Hiter. by eexists.
Qed.

End Saving.


Section Attempt.

Variable w : World.

(** The resolver reads the world only: its answer does not depend on
    the state, which it hands back untouched. *)
Lemma resolver_state_indep u resp st st0 :
  get_filename_from_url w u resp st = ((get_filename_from_url w u resp st0).1, st).
Proof.
  unfold get_filename_from_url, py_urlparse, bind.
  destruct (urlparse w u) as [msg|parsed]; [done|]. cbn [ret].
  by destruct (_ && _).
Qed.

(** Past the two gates, the attempt is the save under the resolved
    name. *)
Lemma download_image_saving u st resp :
  requests_get w u = inr resp →
  Py.truthy (http_error_msg resp) = false →
  Py.startswith (content_type_of resp) "image" = true →
  download_image w u st
  = (let* filename := get_filename_from_url w u resp in
     let* r := try_except (save_to w (path_join FETCH_DIR filename) resp)
                 isinstance_OSError in
     match r with
     | inr saved => ret (Some saved)
     | inl e =>
         print ("[Error] Failed to save image: " +:+ str_exn e) ;;;
         ret None
     end) (logged st [HttpGet u]).
Proof.
  intros H Hmsg Hct. rewrite download_image_unfold. unfold bind at 1.
  rewrite (checked_get_passed _ _ _ _ H Hmsg). cbv zeta. by rewrite Hct.
Qed.

(** What a successful attempt did. *)
Lemma download_success_inv u st saved st' :
  download_image w u st = (Ret (Some saved), st') →
  ∃ resp name,
    requests_get w u = inr resp ∧
    Py.truthy (http_error_msg resp) = false ∧
    Py.startswith (content_type_of resp) "image" = true ∧
    iter_error resp = None ∧
    (get_filename_from_url w u resp st).1 = Ret name ∧
    saved = path_join FETCH_DIR name ∧
    files (fs st') !! saved = Some (concat (iter_content resp)) ∧
    touches_only saved (logged st [HttpGet u]) st'.
Proof.
  destruct (requests_get w u) as [msg|resp] eqn:Hget.
  { by rewrite (download_request_failed _ _ _ _ Hget). }
  destruct (Py.truthy (http_error_msg resp)) eqn:Hmsg.
  { by rewrite (download_http_error _ _ _ _ Hget Hmsg). }
  destruct (Py.startswith (content_type_of resp) "image") eqn:Hct.
  2: { by rewrite (download_not_image _ _ _ _ Hget Hmsg Hct). }
  rewrite (download_image_saving _ _ _ Hget Hmsg Hct). unfold bind at 1.
  rewrite (resolver_state_indep u resp _ st).
  destruct (get_filename_from_url w u resp st).1 as [name|e] eqn:Hname; [|done].
  unfold bind, try_except.
  destruct (save_to w (path_join FETCH_DIR name) resp (logged st [HttpGet u]))
    as [[fp|e] st1] eqn:Hsave;
    destruct (save_to_spec _ _ _ _ _ _ Hsave) as [Hto Hres].
  - cbn [ret]. intros [= <- <-]. destruct Hres as (-> & Hiter & Hfile).
    by exists resp, name.
  - destruct Hres as [[-> _] | (-> & _ & _)]; by cbn.
Qed.

(** When nothing refuses and the name holds no U+0000, the attempt
    succeeds. *)
Lemma download_succeeds u st resp parsed :
  requests_get w u = inr resp →
  Py.truthy (http_error_msg resp) = false →
  Py.startswith (content_type_of resp) "image" = true →
  urlparse w u = inr parsed →
  (∀ name, (get_filename_from_url w u resp st).1 = Ret name →
           Py.contains Py.NUL name = false) →
  FETCH_DIR ∈ dirs (fs st) →
  (∀ fp, open_error w fp = None) →
  (∀ k, write_error w k = None) →
  iter_error resp = None →
  ∃ saved, Success saved (download_image w u st).
Proof.
  intros Hget Hmsg Hct Hparse Hnul Hdir Hopen Hwrite Hiter.
  rewrite (download_image_saving _ _ _ Hget Hmsg Hct). unfold bind at 1.
  assert (∃ name, ∀ s, get_filename_from_url w u resp s = (Ret name, s)) as [name Hname].
  { unfold get_filename_from_url, py_urlparse, bind. rewrite Hparse. cbn [ret].
    destruct (_ && _); by eexists. }
  rewrite Hname. unfold bind, try_except.
  edestruct (save_to_succeeds w (path_join FETCH_DIR name) resp
               (logged st [HttpGet u])) as [st' ->]; try done.
  - rewrite path_join_nul. apply Hnul. by rewrite Hname.
  - by eexists.
Qed.

(** A transfer that breaks while the body is read is caught by the
    [OSError] handler of the save. *)
Lemma save_failure_reported u st resp name e st1 :
  requests_get w u = inr resp →
  Py.truthy (http_error_msg resp) = false →
  Py.startswith (content_type_of resp) "image" = true →
  (get_filename_from_url w u resp st).1 = Ret name →
  save_to w (path_join FETCH_DIR name) resp (logged st [HttpGet u]) = (Raise e, st1) →
  isinstance_OSError e = true →
  download_image w u st
  = (Ret None, logged st1 [Print ("[Error] Failed to save image: " +:+ str_exn e)]).
Proof.
  intros Hget Hmsg Hct Hname Hsave Hclass.
  rewrite (download_image_saving _ _ _ Hget Hmsg Hct). unfold bind at 1.
  rewrite (resolver_state_indep u resp _ st), Hname.
  unfold bind, try_except. by rewrite Hsave, Hclass.
Qed.

End Attempt.

Lemma path_join_inj dir n1 n2 :
  n1 ≠ "" → n1 ≠ "." → n2 ≠ "" → n2 ≠ "." →
  path_join dir n1 = path_join dir n2 → n1 = n2.
Proof.
  unfold path_join. intros H1 H1' H2 H2'.
  destruct (String.eqb_spec n1 ""); [done|].
  destruct (String.eqb_spec n1 "."); [done|].
  destruct (String.eqb_spec n2 ""); [done|].
  destruct (String.eqb_spec n2 "."); [done|].
  cbn [orb]. intros H. apply app_inj_length in H as [_ H]; [|done]. by injection H.
Qed.

Lemma generated_name_not_dot w ext :
  generated_name w ext ≠ "" ∧ generated_name w ext ≠ ".".
Proof. done. Qed.

(** ** The entry point *)

Section Main.

Variable w : World.

Lemma ensure_fetch_dir_refused st e :
  FETCH_DIR ∉ dirs (fs st) → mkdir_error w = Some e →
  ensure_fetch_dir w st = (Raise (OSError e), st).
Proof.
  intros Hdir Herr. unfold ensure_fetch_dir, mkdir, bind, get_fs.
  destruct (decide (FETCH_DIR ∈ dirs (fs st))); [done|]. by rewrite Herr.
Qed.

Lemma ensure_fetch_dir_available st :
  fetch_dir_available w st →
  ∃ st1, ensure_fetch_dir w st = (Ret tt, st1) ∧
         files (fs st1) = files (fs st) ∧ trace st1 = trace st ∧
         FETCH_DIR ∈ dirs (fs st1).
Proof.
  intros Hav. unfold ensure_fetch_dir, mkdir, bind, get_fs.
  destruct (decide (FETCH_DIR ∈ dirs (fs st))) as [Hin|Hout].
  - by exists st.
  - destruct Hav as [Hin|Herr]; [done|]. rewrite Herr. unfold set_fs.
    eexists. split; [done|]. cbn. repeat split. set_solver.
Qed.

(** The exception of a refused [mkdir] leaves [main] unhandled. *)
Lemma main_mkdir_refused st e :
  FETCH_DIR ∉ dirs (fs st) → mkdir_error w = Some e →
  main w st = (Raise (OSError e), st).
Proof.
  intros Hdir Herr. unfold main. unfold bind at 1.
  by rewrite (ensure_fetch_dir_refused _ _ Hdir Herr).
Qed.

Lemma main_rejects_input st line :
  stdin w = Some line →
  fetch_dir_available w st →
  invalid_input w line →
  ∃ st1 msg,
    ensure_fetch_dir w st = (Ret tt, st1) ∧
    main w st
    = (Ret tt, logged st1 [Prompt "Enter the image URL (http/https): "; Print msg]) ∧
    ((Py.strip line = "" ∧ msg = "No URL entered. Exiting.") ∨
     (Py.strip line ≠ "" ∧ msg = "Please enter a valid HTTP or HTTPS URL.")).
Proof.
  intros Hin Hav Hbad.
  destruct (ensure_fetch_dir_available _ Hav) as (st1 & Hdir & _).
  exists st1. unfold main. unfold bind at 1. rewrite Hdir.
  unfold bind at 1. unfold input, bind at 1. unfold emit at 1. rewrite Hin.
  cbn [ret].
  destruct (Py.truthy (Py.strip line)) eqn:Hurl.
  - apply truthy_true in Hurl. destruct Hbad as [Hempty|(parsed & Hparse & Hh & Hs)]; [done|].
    exists "Please enter a valid HTTP or HTTPS URL.".
    split; [done|]. split; [|by right].
    cbn [negb]. unfold bind, py_urlparse. rewrite Hparse. cbn [ret].
    destruct (String.eqb_spec (scheme parsed) "http"); [done|].
    destruct (String.eqb_spec (scheme parsed) "https"); [done|].
    cbn [orb negb]. unfold print, emit, logged. cbn.
    by rewrite <- (assoc_L (++)).
  - exists "No URL entered. Exiting.". split; [done|].
    cbn [negb]. unfold print, emit, logged. cbn. rewrite <- (assoc_L (++)).
    split; [done|]. left.
    split; [|done]. by destruct (Py.strip line).
Qed.

End Main.


(** ** The claims *)

(** C1. For every URL whose percent-decoded path has a non-empty final
    segment containing a ["."], the filename resolver returns exactly
    that segment, whatever the response (and so whatever content type
    it declares); the state is left as it was. *)
Theorem url_filename_wins (w : World) (u : string) (response : Response)
    (st : State) (parsed : ParseResult) :
  urlparse w u = inr parsed →
  has_path_extension w parsed →
  get_filename_from_url w u response st = (Ret (url_candidate w parsed), st).
Proof.
  intros Hparse [Hne%truthy_true Hdot].
  unfold get_filename_from_url, py_urlparse, bind. rewrite Hparse. cbn [ret].
  rewrite or_empty. fold (url_candidate w parsed). by rewrite Hne, Hdot.
Qed.

Lemma url_filename_wins_witness :
  get_filename_from_url
    (Sample.world "" (inr Sample.cat_png) (inr Sample.ok_html) 1700000000
       Sample.uuid_a None)
    "http://example.com/pics/cat.png" Sample.ok_html Sample.ready
  = (Ret "cat.png", Sample.ready).
Proof.
  apply (url_filename_wins
           (Sample.world "" (inr Sample.cat_png) (inr Sample.ok_html) 1700000000
              Sample.uuid_a None)
           "http://example.com/pics/cat.png" Sample.ok_html Sample.ready
           Sample.cat_png).
  - reflexivity.
  - split; [discriminate | reflexivity].
Defined.

(** C2. When the URL path yields no usable filename, the name returned
    is the generated one and its extension is the ordered fallback
    [fallback_extension] of the lower-cased, parameter-stripped content
    type: the table's value for a key of the table, otherwise ["."]
    and the subtype for a type starting with ["image/"], otherwise
    [".jpg"]. *)
Theorem generated_extension_follows_fallback (w : World) (u : string)
    (response : Response) (st : State) (parsed : ParseResult) :
  urlparse w u = inr parsed →
  no_path_extension w parsed →
  get_filename_from_url w u response st
  = (Ret ("image_" +:+ Py.str_int (Z.of_N (time_time w)) +:+ "_"
            +:+ short_id_of (uuid4 w)
            +:+ fallback_extension (content_type_of response)), st).
Proof. apply resolver_generates. Qed.

Lemma generated_extension_follows_fallback_witness :
  get_filename_from_url (Sample.fetch (inr Sample.ok_png) 1700000000 Sample.uuid_a)
    Sample.cat_url
    (Sample.response 200 "OK" {[ "content-type" := "image/TIFF;x=1" ]} [])
    Sample.ready
  = (Ret "image_1700000000_abcdef.tiff", Sample.ready).
Proof.
  refine (eq_trans
            (generated_extension_follows_fallback
               (Sample.fetch (inr Sample.ok_png) 1700000000 Sample.uuid_a)
               Sample.cat_url
               (Sample.response 200 "OK" {[ "content-type" := "image/TIFF;x=1" ]} [])
               Sample.ready Sample.cat _ _) _).
  - reflexivity.
  - right. reflexivity.
  - vm_compute. reflexivity.
Defined.

(** C3. For a URL with no path extension and declared content type
    [image/png], the resolver returns
    [image_<epoch seconds>_<uuid4().hex[:6]>.png], which has the shape
    [image_<digits>_<6 lower-case hex chars>.png]. *)
Theorem png_name_pattern (w : World) (u : string) (response : Response)
    (st : State) (parsed : ParseResult) :
  urlparse w u = inr parsed →
  no_path_extension w parsed →
  content_type_of response = "image/png" →
  ∃ name,
    get_filename_from_url w u response st = (Ret name, st) ∧
    name = generated_name w ".png" ∧
    generated_name_pattern ".png" name.
Proof.
  intros Hparse Hno Hct. exists (generated_name w ".png").
  split; [|split; [done|apply generated_name_matches]].
  by rewrite (resolver_generates _ _ _ _ _ Hparse Hno), Hct.
Qed.

Lemma png_name_pattern_witness :
  ∃ name,
    get_filename_from_url (Sample.fetch (inr Sample.ok_png) 1700000000 Sample.uuid_a)
      Sample.cat_url Sample.ok_png Sample.ready
    = (Ret name, Sample.ready) ∧
    name = generated_name (Sample.fetch (inr Sample.ok_png) 1700000000 Sample.uuid_a)
             ".png" ∧
    generated_name_pattern ".png" name.
Proof.
  apply (png_name_pattern
           (Sample.fetch (inr Sample.ok_png) 1700000000 Sample.uuid_a)
           Sample.cat_url Sample.ok_png Sample.ready Sample.cat).
  - reflexivity.
  - right. reflexivity.
  - reflexivity.
Defined.

(** C4, as stated, fails: a 304 answer is not a 2xx status, yet
    [raise_for_status] lets it through, and with an image content type
    the (empty) body is saved to a new file and the attempt succeeds. *)
Lemma not_modified_is_saved :
  ¬ non_2xx_is_network_error
      (Sample.fetch (inr Sample.not_modified) 1700000000 Sample.uuid_a)
      Sample.cat_url Sample.ready.
Proof.
  intros [_ H].
  destruct (H Sample.not_modified eq_refl) as (detail & [Hret _] & _).
  - unfold is_2xx. cbn. lia.
  - vm_compute in Hret. discriminate.
Qed.

(** C4, amended. When the GET itself fails, and when the response has
    a 4xx or 5xx status, the downloader reports a network error whose
    detail is the text of the exception, and the filesystem is
    unchanged. *)
Theorem request_failure_is_network_error (w : World) (u : string) (st : State)
    (detail : string) :
  (requests_get w u = inl detail ∨
   ∃ resp, requests_get w u = inr resp ∧ is_4xx_5xx resp ∧
           detail = http_error_msg resp) →
  NetworkError u detail st (download_image w u st) ∧
  filesystem_unchanged st (download_image w u st).
Proof.
  intros [Hget | (resp & Hget & Hstatus%http_error_msg_truthy & ->)].
  - by rewrite (download_request_failed _ _ _ _ Hget).
  - by rewrite (download_http_error _ _ _ _ Hget Hstatus).
Qed.

Lemma request_failure_is_network_error_witness :
  NetworkError Sample.cat_url
    "404 Client Error: Not Found for url: http://example.com/cat" Sample.ready
    (download_image (Sample.fetch (inr Sample.not_found) 1700000000 Sample.uuid_a)
       Sample.cat_url Sample.ready) ∧
  filesystem_unchanged Sample.ready
    (download_image (Sample.fetch (inr Sample.not_found) 1700000000 Sample.uuid_a)
       Sample.cat_url Sample.ready).
Proof.
  apply (request_failure_is_network_error
           (Sample.fetch (inr Sample.not_found) 1700000000 Sample.uuid_a)
           Sample.cat_url Sample.ready).
  right. exists Sample.not_found. split; [reflexivity|].
  split; [|reflexivity]. unfold is_4xx_5xx. cbn. lia.
Defined.

(** A transfer that breaks after the headers is not reported as a
    network error: the exception is caught by the handler of the save,
    and the part already written stays on disk. *)
Example broken_transfer_is_reported_by_save :
  let resp := {| status_code := 200; reason := "OK"; url := Sample.cat_url;
                 headers := Sample.png_headers;
                 iter_content := [[Byte.x89; Byte.x50]];
                 iter_error := Some "Read timed out." |} in
  let r := download_image (Sample.fetch (inr resp) 1700000000 Sample.uuid_a)
             Sample.cat_url Sample.ready in
  WriteError Sample.cat_url "Read timed out." Sample.ready r ∧
  files (fs r.2) !! Sample.saved_cat = Some [Byte.x89; Byte.x50].
Proof. vm_compute. repeat split; reflexivity. Qed.

(** C5. For every 2xx response whose content type (parameters
    stripped, lower-cased) does not start with ["image"], the
    downloader reports that the URL is not an image and the filesystem
    is unchanged. *)
Theorem non_image_is_rejected (w : World) (u : string) (st : State)
    (resp : Response) :
  requests_get w u = inr resp →
  is_2xx resp →
  Py.startswith (content_type_of resp) "image" = false →
  NotAnImage u (content_type_of resp) st (download_image w u st) ∧
  filesystem_unchanged st (download_image w u st).
Proof.
  intros Hget Hok%http_error_msg_2xx Hct.
  rewrite (download_not_image _ _ _ _ Hget); [done|by rewrite Hok|done].
Qed.

Lemma non_image_is_rejected_witness :
  NotAnImage Sample.cat_url "text/html" Sample.ready
    (download_image (Sample.fetch (inr Sample.ok_html) 1700000000 Sample.uuid_a)
       Sample.cat_url Sample.ready) ∧
  filesystem_unchanged Sample.ready
    (download_image (Sample.fetch (inr Sample.ok_html) 1700000000 Sample.uuid_a)
       Sample.cat_url Sample.ready).
Proof.
  apply (non_image_is_rejected
           (Sample.fetch (inr Sample.ok_html) 1700000000 Sample.uuid_a)
           Sample.cat_url Sample.ready Sample.ok_html).
  - reflexivity.
  - unfold is_2xx. cbn. lia.
  - reflexivity.
Defined.

(** C6. After a successful download the saved file holds exactly the
    concatenation of the chunks of the response body, in arrival order
    (empty chunks included, which add nothing). *)
Theorem saved_file_is_the_body (w : World) (u : string) (st : State)
    (saved : string) :
  Success saved (download_image w u st) →
  ∃ resp,
    requests_get w u = inr resp ∧
    files (fs (download_image w u st).2) !! saved
    = Some (concat (iter_content resp)).
Proof.
  unfold Success. destruct (download_image w u st) as [r st'] eqn:Hrun.
  cbn. intros ->.
  destruct (download_success_inv _ _ _ _ _ Hrun)
    as (resp & name & Hget & _ & _ & _ & _ & _ & Hfile & _).
  by exists resp.
Qed.

Lemma saved_file_is_the_body_witness :
  ∃ resp,
    requests_get (Sample.fetch (inr Sample.ok_png) 1700000000 Sample.uuid_a)
      Sample.cat_url = inr resp ∧
    files (fs (download_image
                 (Sample.fetch (inr Sample.ok_png) 1700000000 Sample.uuid_a)
                 Sample.cat_url Sample.ready).2) !! Sample.saved_cat
    = Some (concat (iter_content resp)).
Proof.
  apply (saved_file_is_the_body
           (Sample.fetch (inr Sample.ok_png) 1700000000 Sample.uuid_a)
           Sample.cat_url Sample.ready Sample.saved_cat).
  vm_compute. reflexivity.
Defined.


(** C7, on the code. The directory is created by [main], outside any
    handler: when the operating system refuses the [mkdir], the
    [OSError] leaves [main] unhandled, before the prompt is shown and
    without any diagnostic of the program; the interpreter exits with
    status 1. *)
Theorem refused_mkdir_escapes_main :
  main (Sample.world Sample.cat_url (inr Sample.cat) (inr Sample.ok_png)
          1700000000 Sample.uuid_a (Some Sample.permission_denied))
    Sample.no_dir
  = (Raise (OSError Sample.permission_denied), Sample.no_dir) ∧
  exit_code
    (main (Sample.world Sample.cat_url (inr Sample.cat) (inr Sample.ok_png)
             1700000000 Sample.uuid_a (Some Sample.permission_denied))
       Sample.no_dir).1 = 1.
Proof.
  rewrite (main_mkdir_refused _ _ Sample.permission_denied); [done| |done].
  cbn. set_solver.
Qed.

(** The sibling path: inside [download_image] the same kind of failure
    is handled. With the directory missing, [open] (of a name free of
    U+0000) fails and the attempt ends in a write error carrying the OS
    text. *)
Lemma missing_dir_is_write_error (w : World) (u : string) (st : State)
    (resp : Response) (name : string) :
  requests_get w u = inr resp →
  Py.truthy (http_error_msg resp) = false →
  Py.startswith (content_type_of resp) "image" = true →
  (get_filename_from_url w u resp st).1 = Ret name →
  Py.contains Py.NUL name = false →
  FETCH_DIR ∉ dirs (fs st) →
  WriteError u (strerror_ENOENT (path_join FETCH_DIR name)) st (download_image w u st) ∧
  filesystem_unchanged st (download_image w u st).
Proof.
  intros Hget Hmsg Hct Hname Hnul Hdir.
  rewrite (save_failure_reported w u st resp name
             (OSError (strerror_ENOENT (path_join FETCH_DIR name)))
             (logged st [HttpGet u])); try done.
  - unfold WriteError, emitted, filesystem_unchanged, logged. cbn.
    by rewrite <- (assoc_L (++)).
  - unfold save_to, open_wb. rewrite path_join_nul, Hnul.
    unfold bind at 1. unfold bind at 1. unfold get_fs.
    cbn [fs logged]. by destruct (decide (FETCH_DIR ∈ dirs (fs st))).
Qed.

(** C8, as stated, fails: two launches within the same second whose
    UUIDs start with the same six hexadecimal digits generate the same
    name. *)
Lemma same_second_same_prefix_collide :
  ¬ generated_names_differ
      (Sample.fetch (inr Sample.ok_png) 1700000000 Sample.uuid_a)
      (Sample.fetch (inr Sample.ok_jpg) 1700000000 Sample.uuid_b)
      Sample.cat_url Sample.ok_png Sample.ok_jpg Sample.ready Sample.ready.
Proof.
  intros H.
  apply (H Sample.cat Sample.cat);
    [reflexivity | reflexivity | right; reflexivity | right; reflexivity |].
  vm_compute. reflexivity.
Qed.

(** ... and the second save then replaces the file of the first. *)
Example collision_overwrites :
  let st1 := (download_image
                (Sample.fetch (inr Sample.ok_png) 1700000000 Sample.uuid_a)
                Sample.cat_url Sample.ready).2 in
  let st2 := (download_image
                (Sample.fetch (inr Sample.ok_jpg) 1700000000 Sample.uuid_b)
                Sample.cat_url st1).2 in
  Sample.uuid_a ≠ Sample.uuid_b ∧
  files (fs st1) !! Sample.saved_cat = Some (concat Sample.png_chunks) ∧
  files (fs st2) !! Sample.saved_cat = Some (concat Sample.jpg_chunks) ∧
  size (files (fs st2)) = 1%nat.
Proof. vm_compute. repeat split; (reflexivity || discriminate). Qed.

(** C8, amended. Two saves for extension-less URLs whose launches
    differ in the epoch second or in the six-character UUID prefix go
    to distinct paths, and the second save leaves the file of the
    first as it was. *)
Theorem distinct_stamp_or_suffix_no_overwrite (w1 w2 : World) (u1 u2 : string)
    (st : State) (p1 p2 : ParseResult) (saved1 saved2 : string) :
  urlparse w1 u1 = inr p1 → no_path_extension w1 p1 →
  urlparse w2 u2 = inr p2 → no_path_extension w2 p2 →
  time_time w1 ≠ time_time w2 ∨ short_id_of (uuid4 w1) ≠ short_id_of (uuid4 w2) →
  Success saved1 (download_image w1 u1 st) →
  Success saved2 (download_image w2 u2 (download_image w1 u1 st).2) →
  saved1 ≠ saved2 ∧
  files (fs (download_image w2 u2 (download_image w1 u1 st).2).2) !! saved1
  = files (fs (download_image w1 u1 st).2) !! saved1.
Proof.
  intros Hp1 Hno1 Hp2 Hno2 Hdiff. unfold Success.
  destruct (download_image w1 u1 st) as [r1 st1] eqn:Hrun1. cbn. intros ->.
  destruct (download_image w2 u2 st1) as [r2 st2] eqn:Hrun2. cbn. intros ->.
  destruct (download_success_inv _ _ _ _ _ Hrun1)
    as (resp1 & name1 & _ & _ & _ & _ & Hname1 & -> & _ & _).
  destruct (download_success_inv _ _ _ _ _ Hrun2)
    as (resp2 & name2 & _ & _ & _ & _ & Hname2 & -> & _ & _ & _ & Hframe).
  rewrite (resolver_generates _ _ _ _ _ Hp1 Hno1) in Hname1.
  rewrite (resolver_generates _ _ _ _ _ Hp2 Hno2) in Hname2.
  cbn in Hname1, Hname2. injection Hname1 as <-. injection Hname2 as <-.
  assert (Hne : path_join FETCH_DIR (generated_name w1 (fallback_extension (content_type_of resp1)))
                ≠ path_join FETCH_DIR (generated_name w2 (fallback_extension (content_type_of resp2)))).
  { intros Heq%path_join_inj; [|apply generated_name_not_dot..].
    apply generated_name_inj in Heq as (Ht & Hs & _). by destruct Hdiff. }
  split; [done|]. by rewrite Hframe.
Qed.

Lemma distinct_stamp_or_suffix_no_overwrite_witness :
  Sample.saved_cat ≠ "Fetched_Images/image_1700000000_123456.png" ∧
  files (fs (download_image
               (Sample.fetch (inr Sample.ok_jpg) 1700000000 Sample.uuid_c)
               Sample.cat_url
               (download_image
                  (Sample.fetch (inr Sample.ok_png) 1700000000 Sample.uuid_a)
                  Sample.cat_url Sample.ready).2).2) !! Sample.saved_cat
  = files (fs (download_image
                 (Sample.fetch (inr Sample.ok_png) 1700000000 Sample.uuid_a)
                 Sample.cat_url Sample.ready).2) !! Sample.saved_cat.
Proof.
  apply (distinct_stamp_or_suffix_no_overwrite
           (Sample.fetch (inr Sample.ok_png) 1700000000 Sample.uuid_a)
           (Sample.fetch (inr Sample.ok_jpg) 1700000000 Sample.uuid_c)
           Sample.cat_url Sample.cat_url Sample.ready Sample.cat Sample.cat).
  - reflexivity.
  - right. reflexivity.
  - reflexivity.
  - right. reflexivity.
  - right. vm_compute. discriminate.
  - vm_compute. reflexivity.
  - vm_compute. reflexivity.
Defined.

(** C9, on the code. The line [ftp://[example.com/cat] has a scheme
    that is neither http nor https, yet no message is printed for it:
    [urlparse] raises [ValueError] on the unclosed bracket, [main] has
    no handler for it, and the launch ends right after the prompt with
    the exception (exit status 1), no request issued and no file
    written. *)
Theorem bracketed_ftp_url_escapes_main :
  (main Faulty.typed_ftp_bracket Sample.no_dir).1
  = Raise (ValueError "Invalid IPv6 URL") ∧
  exit_code (main Faulty.typed_ftp_bracket Sample.no_dir).1 = 1 ∧
  trace (main Faulty.typed_ftp_bracket Sample.no_dir).2
  = [Prompt "Enter the image URL (http/https): "] ∧
  files (fs (main Faulty.typed_ftp_bracket Sample.no_dir).2) = ∅.
Proof. vm_compute. repeat split; reflexivity. Qed.

(** The part of C9 that the code keeps: in every launch where the URL
    typed at the prompt is empty once stripped, or is accepted by
    [urlparse] with a scheme other than http and https, [main] prints
    the prompt and one explanatory message, returns normally (exit
    status 0), issues no HTTP request and leaves the files as they
    were. *)
Theorem invalid_input_exits_without_download (w : World) (st : State)
    (line : string) :
  stdin w = Some line →
  fetch_dir_available w st →
  invalid_input w line →
  (main w st).1 = Ret tt ∧
  exit_code (main w st).1 = 0 ∧
  files (fs (main w st).2) = files (fs st) ∧
  ∃ msg,
    msg ≠ "" ∧
    trace (main w st).2
    = trace st ++ [Prompt "Enter the image URL (http/https): "; Print msg] ∧
    issues_no_request [Prompt "Enter the image URL (http/https): "; Print msg].
Proof.
  intros Hin Hav Hbad.
  destruct (ensure_fetch_dir_available _ _ Hav) as (st1' & Hdir & Hfiles & Htrace & _).
  destruct (main_rejects_input _ _ _ Hin Hav Hbad) as (st1 & msg & Hdir' & -> & Hmsg).
  rewrite Hdir in Hdir'. injection Hdir' as <-.
  cbn. rewrite Hfiles, Htrace. repeat split.
  exists msg. repeat split.
  - by destruct Hmsg as [[_ ->] | [_ ->]].
  - intros target Hmem.
    apply elem_of_cons in Hmem as [Heq|Hmem]; [discriminate|].
    apply elem_of_cons in Hmem as [Heq|Hmem]; [discriminate|].
    by apply elem_of_nil in Hmem.
Qed.

Lemma invalid_input_exits_without_download_witness :
  (main (Sample.world " ftp://example.com/cat " (inr Sample.ftp_cat)
           (inr Sample.ok_png) 1700000000 Sample.uuid_a None) Sample.no_dir).1
  = Ret tt ∧
  exit_code
    (main (Sample.world " ftp://example.com/cat " (inr Sample.ftp_cat)
             (inr Sample.ok_png) 1700000000 Sample.uuid_a None) Sample.no_dir).1
  = 0 ∧
  files (fs (main (Sample.world " ftp://example.com/cat " (inr Sample.ftp_cat)
                     (inr Sample.ok_png) 1700000000 Sample.uuid_a None)
               Sample.no_dir).2)
  = files (fs Sample.no_dir) ∧
  ∃ msg,
    msg ≠ "" ∧
    trace (main (Sample.world " ftp://example.com/cat " (inr Sample.ftp_cat)
                   (inr Sample.ok_png) 1700000000 Sample.uuid_a None)
             Sample.no_dir).2
    = trace Sample.no_dir
      ++ [Prompt "Enter the image URL (http/https): "; Print msg] ∧
    issues_no_request [Prompt "Enter the image URL (http/https): "; Print msg].
Proof.
  apply (invalid_input_exits_without_download
           (Sample.world " ftp://example.com/cat " (inr Sample.ftp_cat)
              (inr Sample.ok_png) 1700000000 Sample.uuid_a None)
           Sample.no_dir " ftp://example.com/cat ").
  - reflexivity.
  - right. reflexivity.
  - right. exists Sample.ftp_cat. split; [reflexivity|]. split; discriminate.
Defined.

Example empty_input_exits :
  main (Sample.world "   " (inr Sample.cat) (inr Sample.ok_png) 1700000000
          Sample.uuid_a None) Sample.ready
  = (Ret tt,
     logged Sample.ready
       [Prompt "Enter the image URL (http/https): ";
        Print "No URL entered. Exiting."]).
Proof. reflexivity. Qed.

(** C10. A 2xx response without a Content-Type header, or with an
    empty one, is treated as not an image: the lookup defaults to the
    empty string, which does not start with ["image"]; the downloader
    reports it with an empty content type and the filesystem is
    unchanged. *)
Theorem missing_content_type_is_rejected (w : World) (u : string) (st : State)
    (resp : Response) :
  requests_get w u = inr resp →
  is_2xx resp →
  headers resp !! "content-type" = None ∨ headers resp !! "content-type" = Some "" →
  NotAnImage u "" st (download_image w u st) ∧
  filesystem_unchanged st (download_image w u st).
Proof.
  intros Hget Hok%http_error_msg_2xx Hhdr.
  assert (Hct : content_type_of resp = "").
  { unfold content_type_of, headers_get.
    change (Py.lower "Content-Type") with "content-type".
    by destruct Hhdr as [-> | ->]. }
  rewrite (download_not_image _ _ _ _ Hget); [|by rewrite Hok|by rewrite Hct].
  by rewrite Hct.
Qed.

Lemma missing_content_type_is_rejected_witness :
  NotAnImage Sample.cat_url "" Sample.ready
    (download_image (Sample.fetch (inr Sample.ok_bare) 1700000000 Sample.uuid_a)
       Sample.cat_url Sample.ready) ∧
  filesystem_unchanged Sample.ready
    (download_image (Sample.fetch (inr Sample.ok_bare) 1700000000 Sample.uuid_a)
       Sample.cat_url Sample.ready).
Proof.
  apply (missing_content_type_is_rejected
           (Sample.fetch (inr Sample.ok_bare) 1700000000 Sample.uuid_a)
           Sample.cat_url Sample.ready Sample.ok_bare).
  - reflexivity.
  - unfold is_2xx. cbn. lia.
  - left. reflexivity.
Defined.


(** * Further properties of the program *)

(** ** More facts about the primitives *)

Lemma split_last_free c s : Py.contains c (Py.split_last c s) = false.
Proof.
  induction s as [|a s IH]; [done|]. cbn [Py.split_last].
  destruct (Py.contains c s) eqn:Hs; [done|].
  destruct (Ascii.eqb a c) eqn:Ha; [done|]. cbn. by rewrite Ha.
Qed.

(** Neither a digit string nor a hexadecimal one holds a ["/"]. *)
Lemma str_nat_no_slash n : Py.contains "/" (Py.str_int (Z.of_N n)) = false.
Proof.
  unfold Py.str_int. destruct n as [|p]; [done|]. cbn.
  by apply (all_chars_not_contains is_digit), decimal_nilzero_digits.
Qed.

Lemma short_id_no_slash u : Py.contains "/" (short_id_of u) = false.
Proof.
  apply (all_chars_not_contains is_lower_hex); [done|]. apply short_id_shape.
Qed.

(** ** More about the resolver *)

Lemma common_image_ext_shape content_type ext :
  COMMON_IMAGE_EXT !! content_type = Some ext →
  Py.startswith content_type "image/" = true ∧
  Py.startswith ext "." = true ∧ Py.contains "/" ext = false.
Proof.
  revert content_type ext.
  change (map_Forall (λ k ext, Py.startswith k "image/" = true ∧
                               Py.startswith ext "." = true ∧
                               Py.contains "/" ext = false) COMMON_IMAGE_EXT).
  unfold COMMON_IMAGE_EXT. cbn [list_to_map foldr fst snd].
  repeat (apply map_Forall_insert_2; [done|]).
  apply map_Forall_empty.
Qed.

(** Every extension of the fallback is a ["."] followed by text free
    of ["/"]. *)
Lemma fallback_extension_shape content_type :
  ∃ rest, fallback_extension content_type = String "." rest ∧
          Py.contains "/" rest = false.
Proof.
  unfold fallback_extension.
  destruct (COMMON_IMAGE_EXT !! content_type) as [ext|] eqn:Hext.
  - destruct (common_image_ext_shape _ _ Hext) as (_ & Hdot & Hslash).
    destruct ext as [|a ext]; [done|]. cbn [Py.startswith] in Hdot.
    destruct (Ascii.eqb_spec "." a) as [<-|]; [|done].
    exists ext. split; [done|]. cbn in Hslash. done.
  - destruct (Py.startswith content_type "image/").
    + exists (subtype content_type). split; [done|]. apply split_last_free.
    + by exists "jpg".
Qed.

Lemma no_path_extension_iff w parsed :
  no_path_extension w parsed ↔
  Py.truthy (url_candidate w parsed) && Py.contains "." (url_candidate w parsed) = false.
Proof.
  split; [apply no_path_extension_test|].
  unfold no_path_extension. destruct (url_candidate w parsed); cbn; [by left|].
  intros ->. by right.
Qed.

(** The two ways the resolver answers, and the one way it fails. *)
Lemma resolver_cases w u resp st :
  (∃ msg, urlparse w u = inl msg ∧
          get_filename_from_url w u resp st = (Raise (ValueError msg), st)) ∨
  (∃ parsed, urlparse w u = inr parsed ∧ has_path_extension w parsed ∧
             get_filename_from_url w u resp st = (Ret (url_candidate w parsed), st)) ∨
  (∃ parsed, urlparse w u = inr parsed ∧ no_path_extension w parsed ∧
             get_filename_from_url w u resp st
             = (Ret (generated_name w (fallback_extension (content_type_of resp))), st)).
Proof.
  destruct (urlparse w u) as [msg|parsed] eqn:Hparse.
  - left. exists msg. split; [done|].
    unfold get_filename_from_url, py_urlparse, bind. by rewrite Hparse.
  - right.
    destruct (Py.truthy (url_candidate w parsed)
              && Py.contains "." (url_candidate w parsed)) eqn:Htest.
    + left. exists parsed. apply andb_true_iff in Htest as [Hne%truthy_true Hdot].
      split; [done|]. split; [done|].
      unfold get_filename_from_url, py_urlparse, bind. rewrite Hparse. cbn [ret].
      rewrite or_empty. fold (url_candidate w parsed).
      apply truthy_true in Hne. by rewrite Hne, Hdot.
    + right. exists parsed. apply no_path_extension_iff in Htest.
      split; [done|]. split; [done|]. by apply (resolver_generates w u resp st parsed).
Qed.

Lemma generated_name_no_slash w ext :
  Py.contains "/" ext = false → Py.contains "/" (generated_name w ext) = false.
Proof.
  intros Hext. unfold generated_name.
  rewrite !contains_app, str_nat_no_slash, short_id_no_slash, Hext. done.
Qed.

Lemma generated_name_no_nul w ext :
  Py.contains Py.NUL ext = false → Py.contains Py.NUL (generated_name w ext) = false.
Proof.
  intros Hext. unfold generated_name. rewrite !contains_app, Hext.
  assert (Py.contains Py.NUL (Py.str_int (Z.of_N (time_time w))) = false) as ->.
  { unfold Py.str_int. destruct (time_time w) as [|p]; [done|]. cbn.
    by apply (all_chars_not_contains is_digit), decimal_nilzero_digits. }
  assert (Py.contains Py.NUL (short_id_of (uuid4 w)) = false) as ->.
  { apply (all_chars_not_contains is_lower_hex); [done|]. apply short_id_shape. }
  done.
Qed.

Lemma generated_name_has_dot w rest :
  Py.contains "." (generated_name w (String "." rest)) = true.
Proof.
  unfold generated_name. rewrite !contains_app. cbn.
  by rewrite !orb_true_r.
Qed.

(** ** The attempt as a whole *)

Lemma download_image_attempt w u st : Attempt w u st (download_image w u st).
Proof.
  destruct (requests_get w u) as [msg|resp] eqn:Hget.
  { rewrite (download_request_failed _ _ _ _ Hget). by constructor. }
  destruct (Py.truthy (http_error_msg resp)) eqn:Hmsg.
  { rewrite (download_http_error _ _ _ _ Hget Hmsg). by constructor. }
  destruct (Py.startswith (content_type_of resp) "image") eqn:Hct.
  2: { rewrite (download_not_image _ _ _ _ Hget Hmsg Hct). by constructor. }
  assert (Hpass : passes_gates w u resp) by done.
  rewrite (download_image_saving _ _ _ _ Hget Hmsg Hct). unfold bind at 1.
  rewrite (resolver_state_indep w u resp _ st).
  destruct (get_filename_from_url w u resp st).1 as [name|e] eqn:Hname.
  - unfold bind, try_except.
    destruct (save_to w (path_join FETCH_DIR name) resp (logged st [HttpGet u]))
      as [[fp|e] st1] eqn:Hsave;
      destruct (save_to_spec _ _ _ _ _ _ Hsave) as [Hto Hres].
    + destruct Hres as (-> & _ & _). cbn [ret]. by eapply attempt_saved.
    + destruct Hres as [[Hclass _] | (-> & Hnul & ->)].
      * rewrite Hclass. by eapply attempt_save_failed.
      * cbn. by eapply attempt_bad_name.
  - destruct (resolver_cases w u resp st)
      as [(msg & Hparse & Hrun) | [(p & _ & _ & Hrun) | (p & _ & _ & Hrun)]];
      rewrite Hrun in Hname; cbn in Hname; try done.
    injection Hname as <-. by eapply attempt_unparsable.
Qed.

Lemma resolver_name_shape w u resp st name :
  (get_filename_from_url w u resp st).1 = Ret name →
  name ≠ "" ∧ Py.contains "/" name = false ∧ Py.contains "." name = true.
Proof.
  destruct (resolver_cases w u resp st)
    as [(msg & _ & ->) | [(p & _ & [Hne Hdot] & ->) | (p & _ & _ & ->)]];
    cbn; [done| |]; intros [= <-].
  - split; [done|]. split; [apply split_last_free|done].
  - destruct (fallback_extension_shape (content_type_of resp)) as (rest & -> & Hrest).
    split; [done|]. split; [by apply generated_name_no_slash|].
    apply generated_name_has_dot.
Qed.

(** When nothing refuses and the resolved name holds no U+0000, the
    body is saved under that name. *)
Lemma download_saves w u st resp name :
  passes_gates w u resp →
  (get_filename_from_url w u resp st).1 = Ret name →
  Py.contains Py.NUL name = false →
  FETCH_DIR ∈ dirs (fs st) →
  nothing_refuses w resp →
  ∃ st', download_image w u st = (Ret (Some (path_join FETCH_DIR name)), st') ∧
         files (fs st') !! path_join FETCH_DIR name = Some (concat (iter_content resp)) ∧
         touches_only (path_join FETCH_DIR name) (logged st [HttpGet u]) st'.
Proof.
  intros (Hget & Hmsg & Hct) Hname Hnul Hdir (Hopen & Hwrite & Hiter).
  rewrite (download_image_saving _ _ _ _ Hget Hmsg Hct). unfold bind at 1.
  rewrite (resolver_state_indep w u resp _ st), Hname. unfold bind, try_except.
  destruct (save_to_succeeds w (path_join FETCH_DIR name) resp (logged st [HttpGet u]))
    as [st' Hsave]; try done.
  { by rewrite path_join_nul. }
  rewrite Hsave. exists st'. cbn [ret].
  destruct (save_to_spec _ _ _ _ _ _ Hsave) as (Hto & _ & _ & Hfile). done.
Qed.

(** ** Properties of [ensure_fetch_dir] and [get_filename_from_url] *)

Lemma ensure_fetch_dir_effects w st st1 :
  ensure_fetch_dir w st = (Ret tt, st1) →
  FETCH_DIR ∈ dirs (fs st1) ∧
  files (fs st1) = files (fs st) ∧ trace st1 = trace st ∧
  (dirs (fs st1) = dirs (fs st) ∨ dirs (fs st1) = {[FETCH_DIR]} ∪ dirs (fs st)) ∧
  fetch_dir_available w st.
Proof.
  unfold ensure_fetch_dir, mkdir, bind, get_fs, fetch_dir_available.
  destruct (decide (FETCH_DIR ∈ dirs (fs st))) as [Hin|Hout].
  - intros [= <-]. repeat split; auto.
  - destruct (mkdir_error w); [done|]. unfold set_fs. intros [= <-]. cbn.
    repeat split; auto. set_solver.
Qed.

(** X2. Whatever the URL and the response, a name returned by the
    resolver is non-empty, contains no ["/"] and contains a ["."]; the
    resolver leaves the state as it was. *)
Theorem resolved_name_well_formed (w : World) (u : string) (resp : Response)
    (st st' : State) (name : string) :
  get_filename_from_url w u resp st = (Ret name, st') →
  name ≠ "" ∧ Py.contains "/" name = false ∧ Py.contains "." name = true ∧
  st' = st.
Proof.
  intros Hrun. rewrite (resolver_state_indep w u resp st st) in Hrun.
  injection Hrun as Hname. destruct (resolver_name_shape _ _ _ _ _ Hname) as (? & ? & ?).
  done.
Qed.

Lemma resolved_name_well_formed_witness :
  "image_1700000000_abcdef.foo" ≠ "" ∧
  Py.contains "/" "image_1700000000_abcdef.foo" = false ∧
  Py.contains "." "image_1700000000_abcdef.foo" = true ∧
  Sample.ready = Sample.ready.
Proof.
  apply (resolved_name_well_formed
           (Sample.fetch (inr Sample.ok_png) 1700000000 Sample.uuid_a)
           Sample.cat_url
           (Sample.response 200 "OK" {[ "content-type" := "image/x/y/foo" ]} [])
           Sample.ready Sample.ready "image_1700000000_abcdef.foo").
  vm_compute. reflexivity.
Defined.

(** X3. The content-type gate tests the prefix ["image"] only: a type
    that starts with ["image"] but not with ["image/"] (such as
    [imagex/foo]) is accepted, and with no extension in the URL the
    body is saved under a generated name ending in [".jpg"]. *)
Theorem loose_image_prefix_is_saved_as_jpg (w : World) (u : string) (st : State)
    (resp : Response) (parsed : ParseResult) :
  passes_gates w u resp →
  Py.startswith (content_type_of resp) "image/" = false →
  urlparse w u = inr parsed → no_path_extension w parsed →
  FETCH_DIR ∈ dirs (fs st) → nothing_refuses w resp →
  Success (path_join FETCH_DIR (generated_name w ".jpg")) (download_image w u st) ∧
  files (fs (download_image w u st).2) !! path_join FETCH_DIR (generated_name w ".jpg")
  = Some (concat (iter_content resp)).
Proof.
  intros Hpass Hslash Hparse Hno Hdir Hok.
  assert (Hext : fallback_extension (content_type_of resp) = ".jpg").
  { unfold fallback_extension.
    destruct (COMMON_IMAGE_EXT !! content_type_of resp) as [ext|] eqn:Hext.
    - destruct (common_image_ext_shape _ _ Hext) as [Hkey _]. congruence.
    - by rewrite Hslash. }
  destruct (download_saves w u st resp (generated_name w ".jpg") Hpass)
    as (st' & -> & Hfile & _); try done.
  - by rewrite (resolver_generates _ _ _ _ _ Hparse Hno), Hext.
  - by apply generated_name_no_nul.
Qed.

Lemma loose_image_prefix_is_saved_as_jpg_witness :
  Success "Fetched_Images/image_1700000000_abcdef.jpg"
    (download_image (Sample.fetch (inr Faulty.imagex) 1700000000 Sample.uuid_a)
       Sample.cat_url Sample.ready) ∧
  files (fs (download_image
               (Sample.fetch (inr Faulty.imagex) 1700000000 Sample.uuid_a)
               Sample.cat_url Sample.ready).2)
    !! "Fetched_Images/image_1700000000_abcdef.jpg"
  = Some (concat Sample.png_chunks).
Proof.
  refine (loose_image_prefix_is_saved_as_jpg
            (Sample.fetch (inr Faulty.imagex) 1700000000 Sample.uuid_a)
            Sample.cat_url Sample.ready Faulty.imagex Sample.cat _ _ _ _ _ _).
  - repeat split.
  - reflexivity.
  - reflexivity.
  - right. reflexivity.
  - cbn. set_solver.
  - repeat split.
Defined.

(** ** Properties of [download_image] *)

Lemma http_error_msg_truthy_inv resp :
  Py.truthy (http_error_msg resp) = true → is_4xx_5xx resp.
Proof.
  unfold http_error_msg, is_4xx_5xx. intros H.
  destruct (Z.leb_spec 400 (status_code resp)), (Z.ltb_spec (status_code resp) 500),
    (Z.leb_spec 500 (status_code resp)), (Z.ltb_spec (status_code resp) 600);
    cbn [andb] in H; (done || lia).
Qed.

(** What an attempt does to the filesystem and to the trace, read off
    its seven ways. *)
Lemma attempt_effects w u st r st' :
  Attempt w u st (r, st') →
  ∃ evs fp,
    trace st' = trace st ++ HttpGet u :: evs ∧
    dirs (fs st') = dirs (fs st) ∧
    (∀ q, q ≠ fp → files (fs st') !! q = files (fs st) !! q) ∧
    ((evs = [] ∧ r ≠ Ret None) ∨
     (∃ line, evs = [Print line] ∧ Py.startswith line "[Error] " = true ∧ r = Ret None)) ∧
    ((∀ q, files (fs st') !! q = files (fs st) !! q) ∨
     ∃ resp name, passes_gates w u resp ∧
                  (get_filename_from_url w u resp st).1 = Ret name ∧
                  fp = path_join FETCH_DIR name).
Proof.
  inversion 1; subst.
  - eexists _, ""; repeat split; [right; by eexists | by left].
  - eexists _, ""; repeat split; [right; by eexists | by left].
  - eexists _, ""; repeat split; [right; by eexists | by left].
  - exists [], "". repeat split; by left.
  - exists [], "". repeat split; by left.
  - match goal with Hs : save_to _ _ _ _ = _ |- _ =>
      destruct (save_to_spec _ _ _ _ _ _ Hs) as ((Ht & Hd & Hf) & _) end.
    exists [], (path_join FETCH_DIR name). cbn in *.
    repeat split; try done. { by left. } right. by exists resp, name.
  - match goal with Hs : save_to _ _ _ _ = _ |- _ =>
      destruct (save_to_spec _ _ _ _ _ _ Hs) as ((Ht & Hd & Hf) & _) end.
    eexists [_], (path_join FETCH_DIR name). cbn in *.
    repeat split; try done.
    + by rewrite Ht, <- (assoc_L (++)).
    + right. by eexists.
    + right. by exists resp, name.
Qed.

(** X4. A URL whose path gives the filename is saved under that name
    in every launch: a second successful download of the same URL goes
    to the same path and replaces the file with the new body. *)
Theorem url_named_saves_overwrite (w1 w2 : World) (u : string) (st : State)
    (parsed : ParseResult) (saved1 saved2 : string) :
  urlparse w1 u = inr parsed → urlparse w2 u = inr parsed →
  unquote w2 (path parsed) = unquote w1 (path parsed) →
  has_path_extension w1 parsed →
  Success saved1 (download_image w1 u st) →
  Success saved2 (download_image w2 u (download_image w1 u st).2) →
  saved1 = path_join FETCH_DIR (url_candidate w1 parsed) ∧ saved2 = saved1 ∧
  ∃ resp2,
    requests_get w2 u = inr resp2 ∧
    files (fs (download_image w2 u (download_image w1 u st).2).2) !! saved1
    = Some (concat (iter_content resp2)).
Proof.
  intros Hp1 Hp2 Hunq Hext1. unfold Success.
  assert (Hext2 : has_path_extension w2 parsed).
  { unfold has_path_extension, url_candidate in *. by rewrite Hunq. }
  assert (Hcand : url_candidate w2 parsed = url_candidate w1 parsed).
  { unfold url_candidate. by rewrite Hunq. }
  destruct (download_image w1 u st) as [r1 st1] eqn:Hrun1. cbn. intros ->.
  destruct (download_image w2 u st1) as [r2 st2] eqn:Hrun2. cbn. intros ->.
  destruct (download_success_inv _ _ _ _ _ Hrun1)
    as (resp1 & name1 & _ & _ & _ & _ & Hname1 & -> & _ & _).
  destruct (download_success_inv _ _ _ _ _ Hrun2)
    as (resp2 & name2 & Hget2 & _ & _ & _ & Hname2 & -> & Hfile & _).
  destruct (resolver_cases w1 u resp1 st)
    as [(m & Hm & _) | [(p & Hp & _ & Hr) | (p & Hp & [Hno|Hno] & _)]];
    rewrite Hp1 in *; try done.
  2: { injection Hp as <-. by destruct Hext1. }
  2: { injection Hp as <-. destruct Hext1. congruence. }
  injection Hp as <-. rewrite Hr in Hname1. injection Hname1 as <-.
  destruct (resolver_cases w2 u resp2 st1)
    as [(m & Hm & _) | [(p & Hp & _ & Hr2) | (p & Hp & [Hno|Hno] & _)]];
    rewrite Hp2 in *; try done.
  2: { injection Hp as <-. by destruct Hext2. }
  2: { injection Hp as <-. destruct Hext2. congruence. }
  injection Hp as <-. rewrite Hr2 in Hname2. injection Hname2 as <-.
  rewrite Hcand in *. split; [done|]. split; [done|]. by exists resp2.
Qed.

Lemma url_named_saves_overwrite_witness :
  "Fetched_Images/cat.png"
  = path_join FETCH_DIR
      (url_candidate
         (Sample.world "" (inr Sample.cat_png) (inr Sample.ok_png) 1700000000
            Sample.uuid_a None) Sample.cat_png) ∧
  "Fetched_Images/cat.png" = "Fetched_Images/cat.png" ∧
  ∃ resp2,
    requests_get
      (Sample.world "" (inr Sample.cat_png) (inr Sample.ok_jpg) 1700000099
         Sample.uuid_c None) "http://example.com/pics/cat.png" = inr resp2 ∧
    files (fs (download_image
                 (Sample.world "" (inr Sample.cat_png) (inr Sample.ok_jpg) 1700000099
                    Sample.uuid_c None) "http://example.com/pics/cat.png"
                 (download_image
                    (Sample.world "" (inr Sample.cat_png) (inr Sample.ok_png)
                       1700000000 Sample.uuid_a None)
                    "http://example.com/pics/cat.png" Sample.ready).2).2)
      !! "Fetched_Images/cat.png"
    = Some (concat (iter_content resp2)).
Proof.
  apply (url_named_saves_overwrite
           (Sample.world "" (inr Sample.cat_png) (inr Sample.ok_png) 1700000000
              Sample.uuid_a None)
           (Sample.world "" (inr Sample.cat_png) (inr Sample.ok_jpg) 1700000099
              Sample.uuid_c None)
           "http://example.com/pics/cat.png" Sample.ready Sample.cat_png
           "Fetched_Images/cat.png" "Fetched_Images/cat.png").
  - reflexivity.
  - reflexivity.
  - reflexivity.
  - split; [discriminate|reflexivity].
  - vm_compute. reflexivity.
  - vm_compute. reflexivity.
Defined.

(** A resolved name that holds U+0000 stops the attempt at [open]. *)
Lemma download_bad_name w u st resp name :
  passes_gates w u resp →
  (get_filename_from_url w u resp st).1 = Ret name →
  Py.contains Py.NUL name = true →
  download_image w u st
  = (Raise (ValueError "embedded null byte"), logged st [HttpGet u]).
Proof.
  intros (Hget & Hmsg & Hct) Hname Hnul.
  rewrite (download_image_saving _ _ _ _ Hget Hmsg Hct). unfold bind at 1.
  rewrite (resolver_state_indep w u resp _ st), Hname.
  unfold bind, try_except, save_to, open_wb. by rewrite path_join_nul, Hnul.
Qed.

(** X5. When the resolved name holds U+0000 (the path of the URL ends
    in, say, [a%00.png]), [open] raises [ValueError], which the
    [except OSError] of the save does not catch: the exception leaves
    [download_image] after the GET has been issued, nothing is printed
    and the filesystem is unchanged. *)
Theorem nul_name_escapes_download (w : World) (u : string) (st : State)
    (resp : Response) (name : string) :
  passes_gates w u resp →
  (get_filename_from_url w u resp st).1 = Ret name →
  Py.contains Py.NUL name = true →
  (download_image w u st).1 = Raise (ValueError "embedded null byte") ∧
  trace (download_image w u st).2 = trace st ++ [HttpGet u] ∧
  fs (download_image w u st).2 = fs st.
Proof.
  intros Hpass Hname Hnul.
  by rewrite (download_bad_name w u st resp name Hpass Hname Hnul).
Qed.

Lemma nul_name_escapes_download_witness :
  (download_image Faulty.typed_nul Faulty.nul_url Sample.ready).1
  = Raise (ValueError "embedded null byte") ∧
  trace (download_image Faulty.typed_nul Faulty.nul_url Sample.ready).2
  = trace Sample.ready ++ [HttpGet Faulty.nul_url] ∧
  fs (download_image Faulty.typed_nul Faulty.nul_url Sample.ready).2
  = fs Sample.ready.
Proof.
  apply (nul_name_escapes_download Faulty.typed_nul Faulty.nul_url Sample.ready
           Sample.ok_png Faulty.nul_name).
  - repeat split.
  - reflexivity.
  - reflexivity.
Defined.

(** X6. Whatever happens, [download_image] creates and removes no
    directory and changes the content of at most one file, the one at
    [FETCH_DIR / name] for the name the resolver returned. *)
Theorem download_touches_one_file (w : World) (u : string) (st : State) :
  dirs (fs (download_image w u st).2) = dirs (fs st) ∧
  ∀ q, files (fs (download_image w u st).2) !! q ≠ files (fs st) !! q →
       ∃ resp name,
         passes_gates w u resp ∧
         (get_filename_from_url w u resp st).1 = Ret name ∧
         q = path_join FETCH_DIR name.
Proof.
  pose proof (download_image_attempt w u st) as Hat.
  destruct (download_image w u st) as [r st'].
  destruct (attempt_effects _ _ _ _ _ Hat) as (evs & fp & _ & Hd & Hf & _ & Hfp).
  cbn. split; [done|]. intros q Hq.
  destruct Hfp as [Hsame | (resp & name & Hpass & Hname & ->)]; [by destruct Hq|].
  exists resp, name. split; [done|]. split; [done|].
  destruct (decide (q = path_join FETCH_DIR name)); [done|]. destruct Hq. by apply Hf.
Qed.

(** X7. Every run of [download_image] issues exactly one GET, for the
    URL it was given, before anything else; it prints nothing when it
    returns a path or raises, and exactly one line, starting with
    ["[Error] "], when it returns [None]. *)
Theorem download_trace_shape (w : World) (u : string) (st : State) :
  match (download_image w u st).1 with
  | Ret None =>
      ∃ line, trace (download_image w u st).2 = trace st ++ [HttpGet u; Print line] ∧
              Py.startswith line "[Error] " = true
  | _ => trace (download_image w u st).2 = trace st ++ [HttpGet u]
  end.
Proof.
  pose proof (download_image_attempt w u st) as Hat.
  destruct (download_image w u st) as [r st'].
  destruct (attempt_effects _ _ _ _ _ Hat)
    as (evs & fp & Ht & _ & _ & [[-> Hr] | (line & -> & Hline & ->)] & _); cbn.
  - destruct r as [[saved|]|e]; try done.
  - by exists line.
Qed.

(** *** Failures while saving *)

(** A run of the save that raises, seen from [download_image]. *)
Lemma download_save_raises w u st resp name e st1 :
  passes_gates w u resp →
  (get_filename_from_url w u resp st).1 = Ret name →
  save_to w (path_join FETCH_DIR name) resp (logged st [HttpGet u]) = (Raise e, st1) →
  isinstance_OSError e = true →
  WriteError u (str_exn e) st (download_image w u st) ∧
  fs (download_image w u st).2 = fs st1.
Proof.
  intros (Hget & Hmsg & Hct) Hname Hsave Hclass.
  rewrite (save_failure_reported w u st resp name e st1); try done.
  destruct (save_to_spec _ _ _ _ _ _ Hsave) as ((Ht & _ & _) & _).
  unfold WriteError, emitted, logged. cbn in *.
  by rewrite Ht, <- (assoc_L (++)).
Qed.

(** X8. When the operating system refuses to open the file (the
    directory is there, the name is free of U+0000), [download_image]
    reports a write error with the text of the [OSError] and leaves the
    filesystem as it was. *)
Theorem unopenable_file_is_write_error (w : World) (u : string) (st : State)
    (resp : Response) (name detail : string) :
  passes_gates w u resp →
  (get_filename_from_url w u resp st).1 = Ret name →
  Py.contains Py.NUL name = false →
  FETCH_DIR ∈ dirs (fs st) →
  open_error w (path_join FETCH_DIR name) = Some detail →
  WriteError u detail st (download_image w u st) ∧
  filesystem_unchanged st (download_image w u st).
Proof.
  intros Hpass Hname Hnul Hdir Hopen.
  destruct (download_save_raises w u st resp name (OSError detail)
              (logged st [HttpGet u]) Hpass Hname) as [Herr Hfs]; [|done|done].
  unfold save_to, open_wb. rewrite path_join_nul, Hnul.
  unfold bind at 1. unfold bind at 1. unfold get_fs. cbn [fs logged].
  destruct (decide (FETCH_DIR ∈ dirs (fs st))); [|done]. by rewrite Hopen.
Qed.

Lemma unopenable_file_is_write_error_witness :
  WriteError Sample.cat_url "[Errno 13] Permission denied: 'Fetched_Images/image_1700000000_abcdef.png'"
    Sample.ready
    (download_image
       (Faulty.world None (inr Sample.cat) (inr Sample.ok_png)
          (λ fp, Some ("[Errno 13] Permission denied: '" +:+ fp +:+ "'"))
          Faulty.no_refusal)
       Sample.cat_url Sample.ready) ∧
  filesystem_unchanged Sample.ready
    (download_image
       (Faulty.world None (inr Sample.cat) (inr Sample.ok_png)
          (λ fp, Some ("[Errno 13] Permission denied: '" +:+ fp +:+ "'"))
          Faulty.no_refusal)
       Sample.cat_url Sample.ready).
Proof.
  refine (unopenable_file_is_write_error
            (Faulty.world None (inr Sample.cat) (inr Sample.ok_png)
               (λ fp, Some ("[Errno 13] Permission denied: '" +:+ fp +:+ "'"))
               Faulty.no_refusal)
            Sample.cat_url Sample.ready Sample.ok_png
            "image_1700000000_abcdef.png" _ _ _ _ _ _).
  - repeat split.
  - vm_compute. reflexivity.
  - reflexivity.
  - cbn. set_solver.
  - vm_compute. reflexivity.
Defined.

(** X10. When the file (its name free of U+0000) has been opened, the
    transfer breaks after the headers (the body iterator raises a
    [RequestException]) and no write was refused, [download_image]
    reports it as a failure to save, not as a network error, and the
    file is left holding every chunk that arrived. *)
Theorem broken_transfer_is_write_error (w : World) (u : string) (st : State)
    (resp : Response) (name detail : string) :
  passes_gates w u resp →
  (get_filename_from_url w u resp st).1 = Ret name →
  Py.contains Py.NUL name = false →
  FETCH_DIR ∈ dirs (fs st) →
  open_error w (path_join FETCH_DIR name) = None →
  (∀ k, write_error w k = None) →
  iter_error resp = Some detail →
  WriteError u detail st (download_image w u st) ∧
  files (fs (download_image w u st).2) !! path_join FETCH_DIR name
  = Some (concat (iter_content resp)).
Proof.
  intros Hpass Hname Hnul Hdir Hopen Hwrite Hiter.
  rewrite <- path_join_nul in Hnul.
  set (fp := path_join FETCH_DIR name) in *.
  set (st0 := logged st [HttpGet u]).
  set (st1 := {| fs := {| dirs := dirs (fs st0); files := <[fp:=[]]> (files (fs st0)) |};
                 trace := trace st0 |}).
  destruct (write_chunks_succeeds w fp (iter_content resp) 0 st1 Hwrite) as [st2 Hloop].
  assert (Hold : files (fs st1) !! fp = Some []) by apply lookup_insert_eq.
  destruct (write_chunks_spec _ _ _ _ _ _ _ _ Hold Hloop) as [_ Hfile].
  assert (Hsave : save_to w fp resp st0 = (Raise (RequestException detail), st2)).
  { unfold save_to, open_wb. rewrite Hnul.
    unfold bind at 1. unfold bind at 1. unfold get_fs.
    destruct (decide (FETCH_DIR ∈ dirs (fs st0))); [|done]. rewrite Hopen.
    unfold set_fs. fold st1. unfold stream_body, bind. by rewrite Hloop, Hiter. }
  destruct (download_save_raises w u st resp name _ _ Hpass Hname Hsave eq_refl)
    as [Herr' Hfs].
  split; [done|]. by rewrite Hfs.
Qed.

Lemma broken_transfer_is_write_error_witness :
  WriteError Sample.cat_url "Read timed out." Sample.ready
    (download_image (Sample.fetch (inr Faulty.timed_out) 1700000000 Sample.uuid_a)
       Sample.cat_url Sample.ready) ∧
  files (fs (download_image
               (Sample.fetch (inr Faulty.timed_out) 1700000000 Sample.uuid_a)
               Sample.cat_url Sample.ready).2) !! Sample.saved_cat
  = Some [Byte.x89; Byte.x50; Byte.x4e].
Proof.
  refine (broken_transfer_is_write_error
            (Sample.fetch (inr Faulty.timed_out) 1700000000 Sample.uuid_a)
            Sample.cat_url Sample.ready Faulty.timed_out
            "image_1700000000_abcdef.png" "Read timed out." _ _ _ _ _ _ _).
  - repeat split.
  - vm_compute. reflexivity.
  - reflexivity.
  - cbn. set_solver.
  - reflexivity.
  - reflexivity.
  - reflexivity.
Defined.

(** X11. [download_image] reports a network error only when the GET
    itself failed or the status is a 4xx or 5xx one, and the detail it
    prints is then the text of that exception. *)
Theorem network_error_only_from_request (w : World) (u : string) (st : State)
    (detail : string) :
  NetworkError u detail st (download_image w u st) →
  requests_get w u = inl detail ∨
  ∃ resp, requests_get w u = inr resp ∧ is_4xx_5xx resp ∧
          detail = http_error_msg resp.
Proof.
  pose proof (download_image_attempt w u st) as Hat.
  destruct (download_image w u st) as [r st'].
  unfold NetworkError, emitted. cbn. intros [-> Htrace].
  inversion Hat; subst; cbn in Htrace.
  - apply app_inv_head in Htrace. simplify_eq/=. by left.
  - apply app_inv_head in Htrace. simplify_eq/=. right.
    exists resp. split; [done|]. split; [by apply http_error_msg_truthy_inv|done].
  - apply app_inv_head in Htrace. by injection Htrace.
  - match goal with Hs : save_to _ _ _ _ = _ |- _ =>
      destruct (save_to_spec _ _ _ _ _ _ Hs) as ((Ht & _ & _) & _) end.
    cbn in Ht. rewrite Ht, <- (assoc_L (++)) in Htrace.
    apply app_inv_head in Htrace. by injection Htrace.
Qed.

Lemma network_error_only_from_request_witness :
  requests_get (Sample.fetch (inl "Connection refused") 1700000000 Sample.uuid_a)
    Sample.cat_url = inl "Connection refused" ∨
  ∃ resp,
    requests_get (Sample.fetch (inl "Connection refused") 1700000000 Sample.uuid_a)
      Sample.cat_url = inr resp ∧
    is_4xx_5xx resp ∧ "Connection refused" = http_error_msg resp.
Proof.
  apply (network_error_only_from_request
           (Sample.fetch (inl "Connection refused") 1700000000 Sample.uuid_a)
           Sample.cat_url Sample.ready "Connection refused").
  split; reflexivity.
Defined.



(** ** Properties of [main] *)

(** Past the prompt and the two input checks, [main] is the download
    followed by its report. *)
Lemma main_valid_input w st st1 line :
  stdin w = Some line →
  ensure_fetch_dir w st = (Ret tt, st1) →
  valid_input w line →
  main w st
  = match download_image w (Py.strip line) (at_download st1) with
    | (Ret (Some p), st3) =>
        (Ret tt,
         logged st3 [Print ("✅ Image saved to: " +:+ p);
                     Print "You can share images from the Fetched_Images folder later."])
    | (Ret None, st3) =>
        (Ret tt, logged st3 [Print "❌ Image download failed. See error message above."])
    | (Raise e, st3) => (Raise e, st3)
    end.
Proof.
  intros Hin Hdir (Hne%truthy_true & parsed & Hparse & Hscheme).
  unfold main. unfold bind at 1. rewrite Hdir.
  unfold bind at 1. unfold input, bind at 1. unfold emit at 1. rewrite Hin.
  cbn [ret]. rewrite Hne. cbn [negb].
  unfold bind at 1. unfold py_urlparse. rewrite Hparse. cbn [ret].
  assert (String.eqb (scheme parsed) "http" || String.eqb (scheme parsed) "https" = true)
    as ->.
  { destruct Hscheme as [-> | ->]; done. }
  cbn [negb]. unfold bind at 1. unfold print at 1, emit at 1.
  unfold bind at 1.
  replace {| fs := fs {| fs := fs st1; trace := trace st1 ++ [Prompt "Enter the image URL (http/https): "] |};
             trace := trace {| fs := fs st1; trace := trace st1 ++ [Prompt "Enter the image URL (http/https): "] |}
                      ++ [Print "Downloading... this may take a few seconds."] |}
    with (at_download st1).
  2: { unfold at_download, logged. cbn. by rewrite <- (assoc_L (++)). }
  destruct (download_image w (Py.strip line) (at_download st1)) as [[[p|]|e] st3]; [| |done].
  - unfold bind, print, emit, logged. cbn. by rewrite <- (assoc_L (++)).
  - done.
Qed.

(** X13. End to end: with the directory available, a non-empty http or
    https URL typed at the prompt, an image response that passes the
    status check, a resolved name free of U+0000 and nothing refusing,
    [main] prompts, announces the download, issues one GET for the
    stripped URL, saves the body under the resolved name, prints
    where, and returns normally. *)
Theorem main_saves_image (w : World) (st : State) (line : string)
    (resp : Response) (name : string) :
  stdin w = Some line →
  fetch_dir_available w st →
  valid_input w line →
  passes_gates w (Py.strip line) resp →
  (get_filename_from_url w (Py.strip line) resp st).1 = Ret name →
  Py.contains Py.NUL name = false →
  nothing_refuses w resp →
  (main w st).1 = Ret tt ∧ exit_code (main w st).1 = 0 ∧
  trace (main w st).2
  = trace st
    ++ [Prompt "Enter the image URL (http/https): ";
        Print "Downloading... this may take a few seconds.";
        HttpGet (Py.strip line);
        Print ("✅ Image saved to: " +:+ path_join FETCH_DIR name);
        Print "You can share images from the Fetched_Images folder later."] ∧
  files (fs (main w st).2) !! path_join FETCH_DIR name
  = Some (concat (iter_content resp)).
Proof.
  intros Hin Hav Hvalid Hpass Hname Hnul Hok.
  destruct (ensure_fetch_dir_available _ _ Hav) as (st1 & Hdir & Hfiles & Htrace & Hin1).
  rewrite (main_valid_input w st st1 line Hin Hdir Hvalid).
  rewrite (resolver_state_indep w _ resp st (at_download st1)) in Hname.
  cbn [fst] in Hname.
  destruct (download_saves w (Py.strip line) (at_download st1) resp name)
    as (st3 & -> & Hfile & (Ht & _ & _)); try done.
  cbn. repeat split; [|done].
  rewrite Ht. cbn. rewrite Htrace, <- !(assoc_L (++)). done.
Qed.

Lemma main_saves_image_witness :
  (main (Sample.world " http://example.com/cat " (inr Sample.cat) (inr Sample.ok_png)
           1700000000 Sample.uuid_a None) Sample.no_dir).1 = Ret tt ∧
  exit_code
    (main (Sample.world " http://example.com/cat " (inr Sample.cat)
             (inr Sample.ok_png) 1700000000 Sample.uuid_a None) Sample.no_dir).1
  = 0 ∧
  trace (main (Sample.world " http://example.com/cat " (inr Sample.cat)
                 (inr Sample.ok_png) 1700000000 Sample.uuid_a None)
           Sample.no_dir).2
  = trace Sample.no_dir
    ++ [Prompt "Enter the image URL (http/https): ";
        Print "Downloading... this may take a few seconds.";
        HttpGet (Py.strip " http://example.com/cat ");
        Print ("✅ Image saved to: "
                 +:+ path_join FETCH_DIR "image_1700000000_abcdef.png");
        Print "You can share images from the Fetched_Images folder later."] ∧
  files (fs (main (Sample.world " http://example.com/cat " (inr Sample.cat)
                     (inr Sample.ok_png) 1700000000 Sample.uuid_a None)
               Sample.no_dir).2) !! path_join FETCH_DIR "image_1700000000_abcdef.png"
  = Some (concat (iter_content Sample.ok_png)).
Proof.
  apply (main_saves_image
           (Sample.world " http://example.com/cat " (inr Sample.cat) (inr Sample.ok_png)
              1700000000 Sample.uuid_a None)
           Sample.no_dir " http://example.com/cat " Sample.ok_png
           "image_1700000000_abcdef.png").
  - reflexivity.
  - right. reflexivity.
  - split; [discriminate|]. exists Sample.cat. split; [reflexivity|]. by left.
  - repeat split.
  - vm_compute. reflexivity.
  - reflexivity.
  - repeat split.
Defined.

(** Every run of [main] goes one of the seven ways of [MainRun]. *)
Lemma main_run w st : MainRun w st (main w st).
Proof.
  destruct (ensure_fetch_dir w st) as [[[]|e0] st1] eqn:Hdir.
  2: { unfold main. unfold bind at 1. rewrite Hdir.
       unfold ensure_fetch_dir, mkdir, bind, get_fs in Hdir.
       destruct (decide (FETCH_DIR ∈ dirs (fs st))); [done|].
       destruct (mkdir_error w) as [msg|] eqn:Herr; [|done].
       injection Hdir as <- <-. by constructor. }
  destruct (ensure_fetch_dir_effects w st st1 Hdir) as (_ & _ & _ & _ & Hav).
  destruct (stdin w) as [line|] eqn:Hin.
  2: { unfold main. unfold bind at 1. rewrite Hdir.
       unfold bind at 1. unfold input, bind at 1. unfold emit at 1. rewrite Hin.
       by apply run_end_of_input. }
  destruct (Py.truthy (Py.strip line)) eqn:Hne.
  2: { assert (Hbad : invalid_input w line).
       { left. by destruct (Py.strip line). }
       destruct (main_rejects_input w st line Hin Hav Hbad) as (st1' & msg & Hd & -> & _).
       rewrite Hdir in Hd. injection Hd as <-. by eapply run_rejected. }
  apply truthy_true in Hne.
  destruct (urlparse w (Py.strip line)) as [msg|parsed] eqn:Hparse.
  { assert (Hrun : main w st
                   = (Raise (ValueError msg),
                      logged st1 [Prompt "Enter the image URL (http/https): "])).
    { apply truthy_true in Hne.
      unfold main. unfold bind at 1. rewrite Hdir.
      unfold bind at 1. unfold input, bind at 1. unfold emit at 1. rewrite Hin.
      cbn [ret]. rewrite Hne. cbn [negb]. unfold bind at 1, py_urlparse.
      by rewrite Hparse. }
    rewrite Hrun. by eapply run_unparsable. }
  destruct (String.eqb_spec (scheme parsed) "http") as [Hhttp|Hhttp].
  2: destruct (String.eqb_spec (scheme parsed) "https") as [Hhttps|Hhttps].
  3: { assert (Hbad : invalid_input w line) by (right; by exists parsed).
       destruct (main_rejects_input w st line Hin Hav Hbad) as (st1' & msg & Hd & -> & _).
       rewrite Hdir in Hd. injection Hd as <-. by eapply run_rejected. }
  all: assert (Hvalid : valid_input w line)
         by (split; [done|]; exists parsed; split; [done|]; auto).
  all: rewrite (main_valid_input w st st1 line Hin Hdir Hvalid).
  all: destruct (download_image w (Py.strip line) (at_download st1))
         as [[[saved|]|e3] st3] eqn:Hrun;
         [by eapply run_saved | by eapply run_failed | by eapply run_crashed].
Qed.


(** X14. A failed download does not change how [main] ends: whenever
    [download_image] returns [None] (network error, not an image, or
    write error), [main] prints the failure line after the diagnostic
    and returns normally, so the exit status is 0 as on success. *)
Theorem failed_download_still_exits_zero (w : World) (st st1 : State)
    (line : string) :
  stdin w = Some line →
  ensure_fetch_dir w st = (Ret tt, st1) →
  valid_input w line →
  (download_image w (Py.strip line) (at_download st1)).1 = Ret None →
  main w st
  = (Ret tt,
     logged (download_image w (Py.strip line) (at_download st1)).2
       [Print "❌ Image download failed. See error message above."]) ∧
  exit_code (main w st).1 = 0.
Proof.
  intros Hin Hdir Hvalid Hnone.
  rewrite (main_valid_input w st st1 line Hin Hdir Hvalid).
  destruct (download_image w (Py.strip line) (at_download st1)) as [r st3].
  cbn in Hnone. by subst r.
Qed.

Lemma failed_download_still_exits_zero_witness :
  main (Sample.world Sample.cat_url (inr Sample.cat) (inr Sample.not_found)
          1700000000 Sample.uuid_a None) Sample.ready
  = (Ret tt,
     logged (download_image
               (Sample.world Sample.cat_url (inr Sample.cat) (inr Sample.not_found)
                  1700000000 Sample.uuid_a None)
               (Py.strip Sample.cat_url) (at_download Sample.ready)).2
       [Print "❌ Image download failed. See error message above."]) ∧
  exit_code
    (main (Sample.world Sample.cat_url (inr Sample.cat) (inr Sample.not_found)
             1700000000 Sample.uuid_a None) Sample.ready).1 = 0.
Proof.
  apply (failed_download_still_exits_zero
           (Sample.world Sample.cat_url (inr Sample.cat) (inr Sample.not_found)
              1700000000 Sample.uuid_a None)
           Sample.ready Sample.ready Sample.cat_url).
  - reflexivity.
  - vm_compute. reflexivity.
  - split; [discriminate|]. exists Sample.cat. split; [reflexivity|]. by left.
  - vm_compute. reflexivity.
Defined.

(** X15. A typed URL whose resolved name holds U+0000 (a path ending
    in, say, [a%00.png]) crashes [main]: after the prompt, the progress
    line and the GET, [open] raises [ValueError], which no handler
    catches; nothing more is printed, no file changes, and the exit
    status is 1. *)
Theorem nul_name_crashes_main (w : World) (st : State) (line : string)
    (resp : Response) (name : string) :
  stdin w = Some line →
  fetch_dir_available w st →
  valid_input w line →
  passes_gates w (Py.strip line) resp →
  (get_filename_from_url w (Py.strip line) resp st).1 = Ret name →
  Py.contains Py.NUL name = true →
  (main w st).1 = Raise (ValueError "embedded null byte") ∧
  exit_code (main w st).1 = 1 ∧
  trace (main w st).2
  = trace st
    ++ [Prompt "Enter the image URL (http/https): ";
        Print "Downloading... this may take a few seconds.";
        HttpGet (Py.strip line)] ∧
  files (fs (main w st).2) = files (fs st).
Proof.
  intros Hin Hav Hvalid Hpass Hname Hnul.
  destruct (ensure_fetch_dir_available _ _ Hav) as (st1 & Hdir & Hfiles & Htrace & _).
  rewrite (main_valid_input w st st1 line Hin Hdir Hvalid).
  rewrite (resolver_state_indep w _ resp st (at_download st1)) in Hname.
  cbn [fst] in Hname.
  rewrite (download_bad_name w _ _ resp name Hpass Hname Hnul).
  cbn. by rewrite Htrace, <- !(assoc_L (++)).
Qed.

Lemma nul_name_crashes_main_witness :
  (main Faulty.typed_nul Sample.no_dir).1 = Raise (ValueError "embedded null byte") ∧
  exit_code (main Faulty.typed_nul Sample.no_dir).1 = 1 ∧
  trace (main Faulty.typed_nul Sample.no_dir).2
  = trace Sample.no_dir
    ++ [Prompt "Enter the image URL (http/https): ";
        Print "Downloading... this may take a few seconds.";
        HttpGet (Py.strip Faulty.nul_url)] ∧
  files (fs (main Faulty.typed_nul Sample.no_dir).2) = files (fs Sample.no_dir).
Proof.
  apply (nul_name_crashes_main Faulty.typed_nul Sample.no_dir Faulty.nul_url
           Sample.ok_png Faulty.nul_name).
  - reflexivity.
  - right. reflexivity.
  - split; [discriminate|]. exists Faulty.nul_parsed. split; [reflexivity|]. by left.
  - repeat split.
  - reflexivity.
  - reflexivity.
Defined.

(** X16. A line on which [urlparse] raises is not turned into the
    "valid HTTP or HTTPS URL" message: the [ValueError] leaves [main]
    unhandled right after the prompt, and the exit status is 1. *)
Theorem unparsable_url_crashes_main (w : World) (st : State) (line msg : string) :
  stdin w = Some line →
  fetch_dir_available w st →
  Py.strip line ≠ "" →
  urlparse w (Py.strip line) = inl msg →
  (main w st).1 = Raise (ValueError msg) ∧
  exit_code (main w st).1 = 1 ∧
  trace (main w st).2 = trace st ++ [Prompt "Enter the image URL (http/https): "] ∧
  files (fs (main w st).2) = files (fs st).
Proof.
  intros Hin Hav Hne%truthy_true Hparse.
  destruct (ensure_fetch_dir_available _ _ Hav) as (st1 & Hdir & Hfiles & Htrace & _).
  assert (Hrun : main w st
                 = (Raise (ValueError msg),
                    logged st1 [Prompt "Enter the image URL (http/https): "])).
  { unfold main. unfold bind at 1. rewrite Hdir.
    unfold bind at 1. unfold input, bind at 1. unfold emit at 1. rewrite Hin.
    cbn [ret]. rewrite Hne. cbn [negb]. unfold bind at 1, py_urlparse.
    by rewrite Hparse. }
  rewrite Hrun. cbn. by rewrite Htrace.
Qed.

Lemma unparsable_url_crashes_main_witness :
  (main (Faulty.world (Some Faulty.bad_url) (inl "Invalid IPv6 URL")
           (inl "unreachable") Faulty.no_refusal Faulty.no_refusal) Sample.ready).1
  = Raise (ValueError "Invalid IPv6 URL") ∧
  exit_code
    (main (Faulty.world (Some Faulty.bad_url) (inl "Invalid IPv6 URL")
             (inl "unreachable") Faulty.no_refusal Faulty.no_refusal) Sample.ready).1
  = 1 ∧
  trace (main (Faulty.world (Some Faulty.bad_url) (inl "Invalid IPv6 URL")
                 (inl "unreachable") Faulty.no_refusal Faulty.no_refusal)
           Sample.ready).2
  = trace Sample.ready ++ [Prompt "Enter the image URL (http/https): "] ∧
  files (fs (main (Faulty.world (Some Faulty.bad_url) (inl "Invalid IPv6 URL")
                     (inl "unreachable") Faulty.no_refusal Faulty.no_refusal)
               Sample.ready).2)
  = files (fs Sample.ready).
Proof.
  apply (unparsable_url_crashes_main
           (Faulty.world (Some Faulty.bad_url) (inl "Invalid IPv6 URL")
              (inl "unreachable") Faulty.no_refusal Faulty.no_refusal)
           Sample.ready Faulty.bad_url "Invalid IPv6 URL").
  - reflexivity.
  - left. cbn. set_solver.
  - discriminate.
  - reflexivity.
Defined.

(** X17. At end of file on standard input, [input] raises [EOFError]
    and [main] does not handle it: the prompt has been shown, the
    directory has been created, nothing else has happened, and the
    exit status is 1. *)
Theorem end_of_input_crashes_main (w : World) (st : State) :
  stdin w = None →
  fetch_dir_available w st →
  (main w st).1 = Raise EOFError ∧
  exit_code (main w st).1 = 1 ∧
  trace (main w st).2 = trace st ++ [Prompt "Enter the image URL (http/https): "] ∧
  files (fs (main w st).2) = files (fs st) ∧
  FETCH_DIR ∈ dirs (fs (main w st).2).
Proof.
  intros Hin Hav.
  destruct (ensure_fetch_dir_available _ _ Hav) as (st1 & Hdir & Hfiles & Htrace & Hmade).
  assert (Hrun : main w st
                 = (Raise EOFError,
                    logged st1 [Prompt "Enter the image URL (http/https): "])).
  { unfold main. unfold bind at 1. rewrite Hdir.
    unfold bind at 1. unfold input, bind at 1. unfold emit at 1. by rewrite Hin. }
  rewrite Hrun. cbn. by rewrite Htrace.
Qed.

Lemma end_of_input_crashes_main_witness :
  (main Faulty.at_eof Sample.no_dir).1 = Raise EOFError ∧
  exit_code (main Faulty.at_eof Sample.no_dir).1 = 1 ∧
  trace (main Faulty.at_eof Sample.no_dir).2
  = trace Sample.no_dir ++ [Prompt "Enter the image URL (http/https): "] ∧
  files (fs (main Faulty.at_eof Sample.no_dir).2) = files (fs Sample.no_dir) ∧
  FETCH_DIR ∈ dirs (fs (main Faulty.at_eof Sample.no_dir).2).
Proof.
  apply (end_of_input_crashes_main Faulty.at_eof Sample.no_dir).
  - reflexivity.
  - right. reflexivity.
Defined.

Lemma count_requests_app evs1 evs2 :
  count_requests (evs1 ++ evs2) = (count_requests evs1 + count_requests evs2)%nat.
Proof.
  induction evs1 as [|[line|text|target] evs1 IH]; cbn; [done|done|done|].
  by rewrite IH.
Qed.

(** The footprint of one attempt started by [main]. *)
Lemma download_footprint w u st0 r st3 tail :
  download_image w u st0 = (r, st3) →
  count_requests tail = 0%nat →
  dirs (fs (logged st3 tail)) = dirs (fs st0) ∧
  (∃ fp, ∀ q, q ≠ fp → files (fs (logged st3 tail)) !! q = files (fs st0) !! q) ∧
  ∃ evs, trace (logged st3 tail) = trace st0 ++ evs ∧ count_requests evs = 1%nat.
Proof.
  intros Hrun Htail. pose proof (download_image_attempt w u st0) as Hat.
  rewrite Hrun in Hat.
  destruct (attempt_effects _ _ _ _ _ Hat) as (evs & fp & Ht & Hd & Hf & Hevs & _).
  cbn. split; [done|]. split; [by exists fp|].
  exists ((HttpGet u :: evs) ++ tail). rewrite Ht, <- (assoc_L (++)). split; [done|].
  rewrite count_requests_app, Htail. cbn.
  by destruct Hevs as [[-> _] | (line & -> & _)].
Qed.

(** X18. The footprint of a launch: whatever the user types and
    whatever the network and the operating system do, [main] creates
    no directory other than [FETCH_DIR], changes the content of at
    most one file, and issues at most one HTTP request. *)
Theorem main_footprint (w : World) (st : State) :
  (dirs (fs (main w st).2) = dirs (fs st) ∨
   dirs (fs (main w st).2) = {[FETCH_DIR]} ∪ dirs (fs st)) ∧
  (∃ fp, ∀ q, q ≠ fp → files (fs (main w st).2) !! q = files (fs st) !! q) ∧
  ∃ evs, trace (main w st).2 = trace st ++ evs ∧ (count_requests evs ≤ 1)%nat.
Proof.
  pose proof (main_run w st) as Hway.
  destruct (main w st) as [r st']. cbn [snd].
  inversion Hway; subst;
    try match goal with Hd : ensure_fetch_dir _ _ = _ |- _ =>
      destruct (ensure_fetch_dir_effects _ _ _ Hd) as (_ & Hfiles & Htrace & Hdirs & _)
    end.
  - split; [by left|]. split; [by exists ""|]. exists [].
    rewrite (right_id_L [] (++)). split; [done|]. cbn. lia.
  - cbn. split; [done|]. split; [exists ""; by rewrite Hfiles|].
    eexists. rewrite Htrace. split; [done|]. cbn. lia.
  - cbn. split; [done|]. split; [exists ""; by rewrite Hfiles|].
    eexists. rewrite Htrace. split; [done|]. cbn. lia.
  - cbn. split; [done|]. split; [exists ""; by rewrite Hfiles|].
    eexists. rewrite Htrace. split; [done|]. cbn. lia.
  - match goal with Hrun : download_image _ _ _ = _ |- _ =>
      destruct (download_footprint _ _ _ _ _ [] Hrun eq_refl)
        as (Hd & (fp & Hf) & (evs & Ht & Hn)) end.
    cbn in Hd, Hf, Ht |- *. rewrite (right_id_L [] (++)) in Ht. rewrite Hd.
    split; [done|].
    split; [exists fp; intros q Hq; by rewrite Hf, Hfiles|].
    eexists. rewrite Ht, Htrace, <- (assoc_L (++)). split; [done|].
    rewrite count_requests_app, Hn. cbn. lia.
  - match goal with Hrun : download_image _ _ _ = _ |- _ =>
      destruct (download_footprint _ _ _ _ _
                  [Print ("✅ Image saved to: " +:+ saved);
                   Print "You can share images from the Fetched_Images folder later."]
                  Hrun eq_refl) as (Hd & (fp & Hf) & (evs & Ht & Hn)) end.
    cbn in Hd, Hf, Ht |- *. rewrite Hd. split; [done|].
    split; [exists fp; intros q Hq; by rewrite Hf, Hfiles|].
    eexists. rewrite Ht, Htrace, <- (assoc_L (++)). split; [done|].
    rewrite count_requests_app, Hn. cbn. lia.
  - match goal with Hrun : download_image _ _ _ = _ |- _ =>
      destruct (download_footprint _ _ _ _ _
                  [Print "❌ Image download failed. See error message above."]
                  Hrun eq_refl) as (Hd & (fp & Hf) & (evs & Ht & Hn)) end.
    cbn in Hd, Hf, Ht |- *. rewrite Hd. split; [done|].
    split; [exists fp; intros q Hq; by rewrite Hf, Hfiles|].
    eexists. rewrite Ht, Htrace, <- (assoc_L (++)). split; [done|].
    rewrite count_requests_app, Hn. cbn. lia.
Qed.
